(** * Landslide risk scoring engine: a shallow embedding of
    [calculateLandslideRisk] and of the soil normalisation of [fetchSoil]
    (server file of the repository), with the properties of its
    specification.

    Number model.  JavaScript numbers are modelled as real numbers:
    [+], [-], [*], [/] are the exact field operations, [Math.sin],
    [Math.cos], [Math.tan] and [Math.PI] are [sin], [cos], [tan] and [PI],
    and the comparisons are the order of [R].  Rounding of IEEE doubles,
    [NaN] and infinities are outside the model.  The weather code is an
    integer. *)

From Stdlib Require Import Reals Lra Lia ZArith String List Bool.
Import ListNotations.

Open Scope R_scope.

(** ** JavaScript primitives used by the engine *)

Module Js.

(** Comparisons of two numbers, as booleans. *)
Definition gt (x y : R) : bool := if Rgt_dec x y then true else false.
Definition lt (x y : R) : bool := if Rlt_dec x y then true else false.
Definition ge (x y : R) : bool := if Rge_dec x y then true else false.
Definition le (x y : R) : bool := if Rle_dec x y then true else false.

(** [!x] on a number: only zero is falsy. *)
Definition falsy (x : R) : bool := if Req_dec_T x 0 then true else false.

(** [Math.pow(x, 2)]. *)
Definition pow2 (x : R) : R := x ^ 2.

(** The integer [n] chosen by [toFixed]: the one closest to a
    non-negative [x], the larger one on a tie. *)
Definition nearest (x : R) : Z := Int_part (x + / 2).

(** [Number(x.toFixed(d))]: the value of the decimal string that
    [toFixed] prints.  The sign is split off first, and from [10^21] on
    [toFixed] prints the number itself. *)
Definition toFixedNumber (d : nat) (x : R) : R :=
  if Rlt_dec x 0 then
    if Rge_dec (- x) (10 ^ 21) then x
    else - (IZR (nearest (- x * 10 ^ d)) / 10 ^ d)
  else
    if Rge_dec x (10 ^ 21) then x
    else IZR (nearest (x * 10 ^ d)) / 10 ^ d.

(** A string built by a template literal.  The text is kept as it is
    in the source; an interpolated number is kept as a number together
    with the conversion the source applies to it. *)
Inductive chunk : Type :=
| Text (s : string)
| Num (x : R)                     (* ${x} *)
| Fixed (d : nat) (x : R).        (* ${x.toFixed(d)} *)

Definition str : Type := list chunk.

(** [parts.join(sep)]. *)
Fixpoint join (sep : string) (parts : list str) : str :=
  match parts with
  | [] => []
  | [p] => p
  | p :: rest => p ++ Text sep :: join sep rest
  end.

End Js.

(** ** Data model *)

Inductive Level : Type := Safe | Low | Medium | High.

Record FeatureSet : Type := mkFeatures {
  rain : R;
  slope : R;
  clay : R;
  sand : R;
  silt : R;
  bulk_density : R;
  elevation : R;
  temp : R;
  code : Z;
  isWater : bool
}.

Record Details : Type := mkDetails {
  FoS : R;
  cohesion_base : R;
  friction_base : R;
  cohesion_effective : R;
  friction_effective : R;
  shear_strength : R;
  shear_stress : R
}.

Record PredictionResult : Type := mkResult {
  level : Level;
  reason : Js.str;
  details : Details
}.

(** ** [calculateLandslideRisk], statement by statement *)

Module Engine.

Definition isSeaOrWater (f : FeatureSet) : bool :=
  isWater f ||
  (Js.ge (elevation f) (-5) && Js.le (elevation f) 5 &&
   Js.lt (Rabs (slope f)) 0.5 &&
   Js.lt (bulk_density f) 20).

Definition snowCodes : list Z := [71; 73; 75; 77; 85; 86]%Z.

Definition isSnow (f : FeatureSet) : bool :=
  existsb (Z.eqb (code f)) snowCodes || Js.lt (temp f) (-1).

Definition waterReason : Js.str :=
  [Js.Text "🌊 Water body / Sea detected (flat terrain at sea level). This is not a typical land slope."].

Definition snowReason : Js.str :=
  [Js.Text "❄️ Ice/Snow detected. Risk is predominantly from Avalanche or Thaw-Slump, not typical soil shear."].

Definition fClay (f : FeatureSet) : R := clay f / 100.
Definition fSand (f : FeatureSet) : R := sand f / 100.
Definition fSilt (f : FeatureSet) : R := silt f / 100.

Definition c (f : FeatureSet) : R :=
  (fClay f * 35) + (fSilt f * 10) + (fSand f * 1).
Definition phi (f : FeatureSet) : R :=
  (fSand f * 34) + (fSilt f * 28) + (fClay f * 18).

Definition saturationIndex (f : FeatureSet) : R :=
  if Js.gt (rain f) 800 then 1.0
  else if Js.gt (rain f) 400 then 0.7
  else if Js.gt (rain f) 100 then 0.4
  else 0.1.

Definition c_eff (f : FeatureSet) : R := c f * (1 - 0.5 * saturationIndex f).
Definition phi_eff (f : FeatureSet) : R := phi f * (1 - 0.3 * saturationIndex f).

Definition c_used (f : FeatureSet) : R := Rmax 0 (c_eff f).
Definition phi_used (f : FeatureSet) : R := Rmax 5 (phi_eff f).

Definition gamma (f : FeatureSet) : R := (bulk_density f / 100) * 9.81.
Definition z : R := 3.0.
Definition beta (f : FeatureSet) : R := slope f * (PI / 180).

Definition sigma (f : FeatureSet) : R :=
  gamma f * z * Js.pow2 (cos (beta f)).
Definition tau_driving (f : FeatureSet) : R :=
  gamma f * z * sin (beta f) * cos (beta f).

Definition u (f : FeatureSet) : R :=
  if Js.gt (rain f) 800 then sigma f * 0.5
  else if Js.gt (rain f) 400 then sigma f * 0.3
  else if Js.gt (rain f) 100 then sigma f * 0.1
  else 0.

Definition sigma_effective (f : FeatureSet) : R := Rmax 0 (sigma f - u f).
Definition tanPhi (f : FeatureSet) : R := tan (phi_used f * (PI / 180)).

Definition tau_resisting (f : FeatureSet) : R :=
  c_used f + (sigma_effective f * tanPhi f).

(** [FoS] as first assigned, before the flat-terrain branch. *)
Definition FoS0 (f : FeatureSet) : R :=
  tau_resisting f / (tau_driving f + 0.001).

(** The pair ([FoS], [probability]) after the branch on [slope < 1]. *)
Definition classify (f : FeatureSet) : R * R :=
  if Js.lt (slope f) 1 then (20.0, 0.01)
  else
    (FoS0 f,
     if Js.lt (FoS0 f) 1.0 then 0.95
     else if Js.lt (FoS0 f) 1.2 then 0.75
     else if Js.lt (FoS0 f) 1.5 then 0.40
     else if Js.lt (FoS0 f) 2.0 then 0.20
     else 0.05).

Definition FoS1 (f : FeatureSet) : R := fst (classify f).
Definition probability (f : FeatureSet) : R := snd (classify f).

Definition levelOf (p : R) : Level :=
  if Js.gt p 0.7 then High
  else if Js.gt p 0.3 then Medium
  else Low.

Definition clayRich (f : FeatureSet) : Js.str :=
  [Js.Text "The terrain is Clay-rich ("; Js.Fixed 0 (clay f);
   Js.Text "%), which is cohesive but slippery when wet."].
Definition sandy (f : FeatureSet) : Js.str :=
  [Js.Text "The terrain is Sandy ("; Js.Fixed 0 (sand f);
   Js.Text "%), which is loose and prone to washout."].
Definition balanced : Js.str :=
  [Js.Text "The soil has a balanced mix of sand, silt, and clay, providing moderate stability."].
Definition steep (f : FeatureSet) : Js.str :=
  [Js.Text "The slope is extremely steep ("; Js.Num (slope f);
   Js.Text "°), making it naturally unstable."].
Definition flat (f : FeatureSet) : Js.str :=
  [Js.Text "The land is flat ("; Js.Num (slope f);
   Js.Text "°), significantly reducing landslide risk."].
Definition critical : Js.str :=
  [Js.Text "⚠️ CRITICAL: Heavy rainfall is saturating the ground, reducing cohesion and friction."].
Definition moderate : Js.str :=
  [Js.Text "Moderate rain detected. Pore pressure is increasing and effective strength is reduced."].

(** The three groups of [sentences.push], in the order of the source. *)
Definition textureSentences (f : FeatureSet) : list Js.str :=
  if Js.gt (fClay f) 0.45 then [clayRich f]
  else if Js.gt (fSand f) 0.6 then [sandy f]
  else [balanced].

Definition slopeSentences (f : FeatureSet) : list Js.str :=
  if Js.gt (slope f) 35 then [steep f]
  else if Js.lt (slope f) 5 then [flat f]
  else [].

Definition rainSentences (f : FeatureSet) : list Js.str :=
  if Js.gt (rain f) 400 then [critical]
  else if Js.gt (rain f) 100 then [moderate]
  else [].

Definition sentences (f : FeatureSet) : list Js.str :=
  textureSentences f ++ slopeSentences f ++ rainSentences f.

Definition calculateLandslideRisk (f : FeatureSet) : PredictionResult :=
  if isSeaOrWater f then
    {| level := Safe;
       reason := waterReason;
       details := {| FoS := 100;
                     cohesion_base := 0;
                     friction_base := 0;
                     cohesion_effective := 0;
                     friction_effective := 0;
                     shear_strength := 0;
                     shear_stress := 0 |} |}
  else if isSnow f then
    {| level := if Js.gt (slope f) 30 then High else Medium;
       reason := snowReason;
       details := {| FoS := if Js.gt (slope f) 30 then 0.9 else 1.5;
                     cohesion_base := 50;
                     friction_base := 10;
                     cohesion_effective := 50;
                     friction_effective := 10;
                     shear_strength := 0;
                     shear_stress := 0 |} |}
  else
    {| level := levelOf (probability f);
       reason := Js.join " " (sentences f);
       details := {| FoS := FoS1 f;
                     cohesion_base := Js.toFixedNumber 2 (c f);
                     friction_base := Js.toFixedNumber 2 (phi f);
                     cohesion_effective := Js.toFixedNumber 2 (c_used f);
                     friction_effective := Js.toFixedNumber 2 (phi_used f);
                     shear_strength := tau_resisting f;
                     shear_stress := tau_driving f |} |}.

(** The engine's public name in the specification. *)
Definition evaluate : FeatureSet -> PredictionResult := calculateLandslideRisk.

(** The normal-physics path: neither override fires. *)
Definition normalPath (f : FeatureSet) : Prop :=
  isSeaOrWater f = false /\ isSnow f = false.

End Engine.

(** ** The soil collaborator and the assembly of the feature record *)

Module Server.

Record Soil : Type := mkSoil {
  soil_bulk_density : R;
  soil_clay : R;
  soil_sand : R;
  soil_silt : R;
  soil_isWater : bool
}.

(** What the soil request gives [fetchSoil] to work on: the request
    throws, the answer has no [properties], or the three means are read
    from it ([getValFromLayers] and its fallbacks, each [0] when
    absent). *)
Inductive SoilAnswer : Type :=
| RequestFailed
| NoProperties
| Means (clay sand bulk_density : R).

Definition soilDefault : Soil := mkSoil 130 33 33 34 false.
Definition soilWater : Soil := mkSoil 0 0 0 0 true.

Definition fetchSoil (a : SoilAnswer) : Soil :=
  match a with
  | RequestFailed => soilDefault
  | NoProperties => soilDefault
  | Means clay0 sand0 bulk_density =>
      if Js.falsy clay0 && Js.falsy sand0 && Js.falsy bulk_density
      then soilWater
      else
        let clay := clay0 / 10 in
        let sand := sand0 / 10 in
        let silt := 100 - clay - sand in
        let silt := if Js.lt silt 0 then 0 else silt in
        mkSoil bulk_density clay sand silt false
  end.

(** The fields of the weather and terrain answers that the engine
    reads. *)
Record Weather : Type := mkWeather {
  weather_temp : R;
  weather_rain : R;
  weather_code : Z
}.

Record Topo : Type := mkTopo {
  topo_elevation : R;
  topo_slope : R
}.

(** [{ ...weather, ...soil, ...topo }] followed by the manual rainfall
    override of the [/predict] handler. *)
Definition features (w : Weather) (s : Soil) (t : Topo)
    (manualRain : option R) : FeatureSet :=
  {| rain := match manualRain with
             | Some m => m * 10
             | None => weather_rain w
             end;
     slope := topo_slope t;
     clay := soil_clay s;
     sand := soil_sand s;
     silt := soil_silt s;
     bulk_density := soil_bulk_density s;
     elevation := topo_elevation t;
     temp := weather_temp w;
     code := weather_code w;
     isWater := soil_isWater s |}.

End Server.

(** ** The conditions of the specification, as propositions *)

Module Spec.

Import Engine.

(** The water override of the specification. *)
Definition waterOverride (f : FeatureSet) : Prop :=
  isWater f = true \/
  (-5 <= elevation f /\ elevation f <= 5 /\
   Rabs (slope f) < 0.5 /\ bulk_density f < 20).

(** The trigger of the snow/ice override of the specification. *)
Definition snowTrigger (f : FeatureSet) : Prop :=
  In (code f) [71; 73; 75; 77; 85; 86]%Z \/ temp f < -1.

(** The saturation table of the specification. *)
Definition saturationTable (r : R) (s : R) : Prop :=
  (r > 800 -> s = 1.0) /\
  (~ r > 800 -> r > 400 -> s = 0.7) /\
  (~ r > 400 -> r > 100 -> s = 0.4) /\
  (~ r > 100 -> s = 0.1).

(** The pore-pressure table of the specification. *)
Definition porePressureTable (r : R) (sg : R) (p : R) : Prop :=
  (r > 800 -> p = 0.5 * sg) /\
  (~ r > 800 -> r > 400 -> p = 0.3 * sg) /\
  (~ r > 400 -> r > 100 -> p = 0.1 * sg) /\
  (~ r > 100 -> p = 0).

(** The probability table of the specification, first match wins. *)
Definition probabilityTable (fos : R) (p : R) : Prop :=
  (fos < 1.0 -> p = 0.95) /\
  (~ fos < 1.0 -> fos < 1.2 -> p = 0.75) /\
  (~ fos < 1.2 -> fos < 1.5 -> p = 0.40) /\
  (~ fos < 1.5 -> fos < 2.0 -> p = 0.20) /\
  (~ fos < 2.0 -> p = 0.05).

(** The level table of the specification, first match wins. *)
Definition levelTable (p : R) (l : Level) : Prop :=
  (p > 0.7 -> l = High) /\
  (~ p > 0.7 -> p > 0.3 -> l = Medium) /\
  (~ p > 0.3 -> l = Low).

(** Texture percentages. *)
Definition textureRange (f : FeatureSet) : Prop :=
  0 <= clay f <= 100 /\ 0 <= sand f <= 100 /\ 0 <= silt f <= 100.

(** A ground inclination between level and vertical, a non-negative
    bulk density, and texture percentages. *)
Definition inRange (f : FeatureSet) : Prop :=
  0 <= slope f <= 90 /\ 0 <= bulk_density f /\ textureRange f.

(** The same features with another rainfall. *)
Definition withRain (r : R) (f : FeatureSet) : FeatureSet :=
  {| rain := r;
     slope := slope f;
     clay := clay f;
     sand := sand f;
     silt := silt f;
     bulk_density := bulk_density f;
     elevation := elevation f;
     temp := temp f;
     code := code f;
     isWater := isWater f |}.

End Spec.

(** ** Concrete feature records *)

Module Inputs.

(** Open water, as the soil collaborator reports it. *)
Definition open_water : FeatureSet :=
  mkFeatures 0 0 0 0 0 0 0 25 0%Z true.

(** Flat ground at sea level with a low bulk density. *)
Definition lagoon : FeatureSet :=
  mkFeatures 120 0.2 33 33 34 10 3 25 0%Z false.

(** Snowfall (code 71) at 5 degrees Celsius on a 40 and on a 10 degree
    slope. *)
Definition snowfall_steep : FeatureSet :=
  mkFeatures 0 40 33 33 34 130 500 5 71%Z false.
Definition snowfall_gentle : FeatureSet :=
  mkFeatures 0 10 33 33 34 130 500 5 71%Z false.

(** The fallback answers of the three collaborators on a 20 degree
    slope at 500 m. *)
Definition hillside : FeatureSet :=
  mkFeatures 0 20 33 33 34 130 500 25 0%Z false.

(** The same hillside on flat ground. *)
Definition plateau : FeatureSet :=
  mkFeatures 0 0.5 33 33 34 130 500 25 0%Z false.

(** A soil whose texture percentages have one decimal, as [fetchSoil]
    produces them (means 333 and 333 per mille). *)
Definition loam : FeatureSet :=
  mkFeatures 0 20 33.3 33.3 33.4 130 500 25 0%Z false.

(** The fallback answers of the weather and terrain collaborators. *)
Definition weatherDefault : Server.Weather := Server.mkWeather 25 0 0%Z.
Definition topoDefault : Server.Topo := Server.mkTopo 0 0.

(** A soil answer whose clay and sand means add up to more than 1000
    per mille, so that the silt remainder is floored. *)
Definition heavy : FeatureSet :=
  Server.features weatherDefault (Server.fetchSoil (Server.Means 600 600 130))
    topoDefault None.

(** A soil answer with 25 percent clay and 40 percent sand. *)
Definition mixed : FeatureSet :=
  Server.features weatherDefault (Server.fetchSoil (Server.Means 250 400 130))
    topoDefault None.

(** Scenario 5 of the specification. *)
Definition scenario : FeatureSet :=
  mkFeatures 0 45 60 20 20 130 500 20 0%Z false.

(** The hillside with an inclination of 135 degrees. *)
Definition overhang : FeatureSet :=
  mkFeatures 0 135 33 33 34 130 500 25 0%Z false.

End Inputs.

(** ** The three data fetchers, from the answer of the remote service on *)

Module Fetch.

(** [xs[i] ?? d] on a JSON array of numbers and nulls. *)
Definition at_or (xs : list (option R)) (i : nat) (d : R) : R :=
  match nth_error xs i with
  | Some (Some v) => v
  | _ => d
  end.

(** The answer of the elevation service: the request throws, or the
    body carries an [elevation] array (possibly absent). *)
Inductive ElevationAnswer : Type :=
| ElevationFailed
| ElevationData (elevation : option (list (option R))).

Definition calculateSlope (a : ElevationAnswer) : Server.Topo :=
  match a with
  | ElevationFailed => Server.mkTopo 0 0
  | ElevationData elevation =>
      let elevations := match elevation with Some l => l | None => [] end in
      let h0 := at_or elevations 0 0 in
      let hNorth := at_or elevations 1 h0 in
      let hEast := at_or elevations 2 h0 in
      let dist := 220 in
      let dz_dx := (hEast - h0) / dist in
      let dz_dy := (hNorth - h0) / dist in
      let rise := sqrt (dz_dx * dz_dx + dz_dy * dz_dy) in
      let slopeDeg := atan rise * (180 / PI) in
      Server.mkTopo h0 (Js.toFixedNumber 1 slopeDeg)
  end.

(** The [hourly] object of the weather service; its arrays hold
    numbers. *)
Record Hourly : Type := mkHourly {
  time : option (list string);
  temperature_2m : option (list R);
  relativehumidity_2m : option (list R);
  precipitation : option (list R)
}.

Record CurrentWeather : Type := mkCurrent {
  temperature : option R;
  weathercode : option Z
}.

Inductive WeatherAnswer : Type :=
| WeatherFailed
| WeatherData (hourly : option Hourly) (current_weather : option CurrentWeather).

(** The object returned by [fetchWeather]. *)
Record WeatherReport : Type := mkReport {
  report_temp : R;
  report_humidity : R;
  report_rain : R;
  report_precip_real : R;
  report_code : Z
}.

(** [(arr && arr[i] !== undefined) ? arr[i] : d]. *)
Definition entry (arr : option (list R)) (i : nat) (d : R) : R :=
  match arr with
  | Some l => match nth_error l i with Some v => v | None => d end
  | None => d
  end.

Definition fetchWeather (a : WeatherAnswer) : WeatherReport :=
  match a with
  | WeatherFailed => mkReport 25 50 0 0 0%Z
  | WeatherData h current_weather =>
      let hourly := match h with
                    | Some o => o
                    | None => mkHourly None None None None
                    end in
      let times := match time hourly with Some l => l | None => [] end in
      let lastIdx := Nat.max 0 (length times - 1) in
      let temp :=
        entry (temperature_2m hourly) lastIdx
          (match current_weather with
           | Some cw => match temperature cw with Some t => t | None => 25 end
           | None => 25
           end) in
      let humidity := entry (relativehumidity_2m hourly) lastIdx 50 in
      let precip := entry (precipitation hourly) lastIdx 0 in
      let code := match current_weather with
                  | Some cw => match weathercode cw with Some k => k | None => 0%Z end
                  | None => 0%Z
                  end in
      mkReport temp humidity (precip * 10) precip code
  end.

(** The part of the report that the engine reads. *)
Definition weatherOf (r : WeatherReport) : Server.Weather :=
  Server.mkWeather (report_temp r) (report_rain r) (report_code r).

(** The [properties] object of the soil service. *)
Record Values : Type := mkValues { mean : option R }.
Record Depth : Type := mkDepth { values : option Values }.
Record Layer : Type := mkLayer { name : string; depths : option (list Depth) }.

Record Properties : Type := mkProperties {
  layers : option (list Layer);
  prop_clay : option Depth;
  prop_sand : option Depth;
  prop_bdod : option Depth
}.

Inductive SoilResponse : Type :=
| SoilFailed
| SoilData (properties : option Properties).

(** [m || d] on an optional number: absent and zero are falsy. *)
Definition or_else (m : option R) (d : R) : R :=
  match m with
  | Some v => if Js.falsy v then d else v
  | None => d
  end.

Definition getValFromLayers (layers : list Layer) (nm : string) : R :=
  match find (fun l => String.eqb (name l) nm) layers with
  | Some layer =>
      match depths layer with
      | Some (d0 :: _) =>
          match values d0 with
          | Some v => or_else (mean v) 0
          | None => 0
          end
      | _ => 0
      end
  | None => 0
  end.

(** [if (!x && props.k && props.k.values) x = props.k.values.mean || x]. *)
Definition fallbackTo (x : R) (direct : option Depth) : R :=
  if Js.falsy x then
    match direct with
    | Some d => match values d with
                | Some v => or_else (mean v) x
                | None => x
                end
    | None => x
    end
  else x.

(** The three means that [fetchSoil] reads from the answer, before the
    water test and the scaling. *)
Definition soilAnswer (r : SoilResponse) : Server.SoilAnswer :=
  match r with
  | SoilFailed => Server.RequestFailed
  | SoilData None => Server.NoProperties
  | SoilData (Some props) =>
      let ls := match layers props with Some l => l | None => [] end in
      let clay := getValFromLayers ls "clay" in
      let sand := getValFromLayers ls "sand" in
      let bulk_density := getValFromLayers ls "bdod" in
      let clay := fallbackTo clay (prop_clay props) in
      let sand := fallbackTo sand (prop_sand props) in
      let bulk_density := fallbackTo bulk_density (prop_bdod props) in
      Server.Means clay sand bulk_density
  end.

Definition fetchSoil (r : SoilResponse) : Server.Soil :=
  Server.fetchSoil (soilAnswer r).

End Fetch.

(** ** The [/predict] route *)

Module Route.

Record Body : Type := mkBody {
  lat : option R;
  lng : option R;
  manualRain : option R
}.

(** The merged [features] object: what the engine reads, and the two
    fields it does not read. *)
Record Data : Type := mkData {
  data_features : FeatureSet;
  data_humidity : R;
  data_precip_real : R
}.

(** The answer of the route.  The three fetchers catch their own
    failures and the engine is total, so the handler's [catch] (status
    500) is never entered and has no constructor. *)
Inductive Reply : Type :=
| BadRequest                                   (* status 400 *)
| Ok (location : option R * option R) (data : Data)
     (prediction : PredictionResult) (isSimulated : bool).

Definition predict (body : Body) (w : Fetch.WeatherAnswer)
    (s : Fetch.SoilResponse) (e : Fetch.ElevationAnswer) : Reply :=
  match lat body, lng body with
  | Some la, Some ln =>
      let weather := Fetch.fetchWeather w in
      let soil := Fetch.fetchSoil s in
      let topo := Fetch.calculateSlope e in
      let features :=
        Server.features (Fetch.weatherOf weather) soil topo (manualRain body) in
      let precip_real := match manualRain body with
                         | Some m => m
                         | None => Fetch.report_precip_real weather
                         end in
      let isSimulated := match manualRain body with
                         | Some _ => true
                         | None => false
                         end in
      Ok (lat body, lng body)
         (mkData features (Fetch.report_humidity weather) precip_real)
         (Engine.calculateLandslideRisk features)
         isSimulated
  | _, _ => BadRequest
  end.

(** The parts of a reply; a 400 has none. *)
Definition predictionOf (r : Reply) : option PredictionResult :=
  match r with
  | Ok _ _ p _ => Some p
  | BadRequest => None
  end.

Definition dataOf (r : Reply) : option Data :=
  match r with
  | Ok _ d _ _ => Some d
  | BadRequest => None
  end.

Definition isSimulatedOf (r : Reply) : option bool :=
  match r with
  | Ok _ _ _ b => Some b
  | BadRequest => None
  end.

End Route.

(** ** The map client *)

Module Client.

(** [rainToSend] of [predictRisk]. *)
Definition rainToSend (simMode : bool) (manualRainOverride : option R)
    (rainValue : R) : option R :=
  if simMode && (match manualRainOverride with Some _ => true | None => false end)
  then manualRainOverride
  else if simMode then Some rainValue else None.

(** The body that [predictRisk] posts. *)
Definition request (simMode : bool) (rainValue : R) (latlng : R * R)
    (manualRainOverride : option R) : Route.Body :=
  Route.mkBody (Some (fst latlng)) (Some (snd latlng))
    (rainToSend simMode manualRainOverride rainValue).

(** The [details] object as it travels in the JSON reply. *)
Definition detailsObject (d : Details) : list (string * R) :=
  [("FoS", FoS d);
   ("cohesion_base", cohesion_base d);
   ("friction_base", friction_base d);
   ("cohesion_effective", cohesion_effective d);
   ("friction_effective", friction_effective d);
   ("shear_strength", shear_strength d);
   ("shear_stress", shear_stress d)]%string.

(** [o[key]]. *)
Fixpoint get (o : list (string * R)) (key : string) : option R :=
  match o with
  | [] => None
  | (k, v) :: rest => if String.eqb k key then Some v else get rest key
  end.

Definition safeDetail (details : option (list (string * R)))
    (key suffix : string) (fallback : Js.str) : Js.str :=
  match details with
  | None => fallback
  | Some d =>
      let val := match get d key with
                 | Some v => Some v
                 | None => get d (key ++ "_effective")
                 end in
      match val with
      | Some v => [Js.Num v; Js.Text suffix]
      | None => fallback
      end
  end.

(** The elevation box: [elevation ? `${Math.round(elevation)}m` : 'N/A']. *)
Definition elevationBox (elevation : R) : Js.str :=
  if Js.falsy elevation then [Js.Text "N/A"]
  else [Js.Num (IZR (Js.nearest elevation)); Js.Text "m"].

Inductive Colour : Type := Red | Orange | Green.

(** The background of the risk header. *)
Definition headerColour (l : Level) : Colour :=
  match l with
  | High => Red
  | Medium => Orange
  | _ => Green
  end.

End Client.

(** ** Soil answers in physical units *)

Module Range.

(** Clay and sand means between 0 and 1000 per mille and a non-negative
    bulk density; nothing is asked of a failed request or of an answer
    without properties. *)
Definition soilMeans (a : Server.SoilAnswer) : Prop :=
  match a with
  | Server.Means clay0 sand0 bulk_density =>
      0 <= clay0 <= 1000 /\ 0 <= sand0 <= 1000 /\ 0 <= bulk_density
  | _ => True
  end.

End Range.

(** ** An order on the levels *)

Module Risk.

(** How alarming a level is. *)
Definition severity (l : Level) : nat :=
  match l with
  | Safe => 0
  | Low => 1
  | Medium => 2
  | High => 3
  end.

End Risk.

(** ** Comparisons and the two override tests *)

Section Comparisons.

Variables x y : R.

Lemma gt_true : Js.gt x y = true <-> x > y.
Proof. unfold Js.gt; destruct (Rgt_dec x y); intuition congruence. Qed.

Lemma gt_false : Js.gt x y = false <-> ~ x > y.
Proof. unfold Js.gt; destruct (Rgt_dec x y); intuition congruence. Qed.

Lemma lt_true : Js.lt x y = true <-> x < y.
Proof. unfold Js.lt; destruct (Rlt_dec x y); intuition congruence. Qed.

Lemma lt_false : Js.lt x y = false <-> ~ x < y.
Proof. unfold Js.lt; destruct (Rlt_dec x y); intuition congruence. Qed.

Lemma ge_true : Js.ge x y = true <-> y <= x.
Proof.
  unfold Js.ge; destruct (Rge_dec x y) as [H | H]; split; intro K;
    try congruence; try lra.
Qed.

Lemma le_true : Js.le x y = true <-> x <= y.
Proof. unfold Js.le; destruct (Rle_dec x y); intuition congruence. Qed.

End Comparisons.

(** Decide every comparison in sight and keep the facts. *)
Ltac js_cases :=
  unfold Js.gt, Js.lt, Js.ge, Js.le in *;
  repeat match goal with
         | |- context [Rgt_dec ?a ?b] => destruct (Rgt_dec a b)
         | |- context [Rlt_dec ?a ?b] => destruct (Rlt_dec a b)
         | |- context [Rge_dec ?a ?b] => destruct (Rge_dec a b)
         | |- context [Rle_dec ?a ?b] => destruct (Rle_dec a b)
         end.

Lemma isSeaOrWater_true (f : FeatureSet) :
  Engine.isSeaOrWater f = true <-> Spec.waterOverride f.
Proof.
  unfold Engine.isSeaOrWater, Spec.waterOverride.
  rewrite orb_true_iff, !andb_true_iff, ge_true, le_true, !lt_true.
  tauto.
Qed.

Lemma isSeaOrWater_false (f : FeatureSet) :
  Engine.isSeaOrWater f = false <-> ~ Spec.waterOverride f.
Proof.
  rewrite <- isSeaOrWater_true.
  destruct (Engine.isSeaOrWater f); intuition congruence.
Qed.

Lemma isSnow_true (f : FeatureSet) :
  Engine.isSnow f = true <-> Spec.snowTrigger f.
Proof.
  unfold Engine.isSnow, Spec.snowTrigger, Engine.snowCodes.
  rewrite orb_true_iff, lt_true, existsb_exists.
  split; intros [H | H]; auto; left.
  - destruct H as (k & Hin & Hk). apply Z.eqb_eq in Hk. now subst k.
  - exists (code f). split; [exact H | apply Z.eqb_refl].
Qed.

Lemma normalPath_result (f : FeatureSet) :
  Engine.normalPath f ->
  Engine.evaluate f =
  {| level := Engine.levelOf (Engine.probability f);
     reason := Js.join " " (Engine.sentences f);
     details :=
       {| FoS := Engine.FoS1 f;
          cohesion_base := Js.toFixedNumber 2 (Engine.c f);
          friction_base := Js.toFixedNumber 2 (Engine.phi f);
          cohesion_effective := Js.toFixedNumber 2 (Engine.c_used f);
          friction_effective := Js.toFixedNumber 2 (Engine.phi_used f);
          shear_strength := Engine.tau_resisting f;
          shear_stress := Engine.tau_driving f |} |}.
Proof.
  intros [Hw Hs].
  unfold Engine.evaluate, Engine.calculateLandslideRisk.
  now rewrite Hw, Hs.
Qed.

Lemma levelOf_table (p : R) : Spec.levelTable p (Engine.levelOf p).
Proof.
  unfold Spec.levelTable, Engine.levelOf. js_cases; repeat split; intros; try reflexivity; lra.
Qed.

Lemma levelOf_not_Safe (p : R) : Engine.levelOf p <> Safe.
Proof. unfold Engine.levelOf. js_cases; discriminate. Qed.

(** ** The overrides *)

(** C2. When [isWater] is true, or the elevation is in [-5, 5] with
    [|slope| < 0.5] and [bulk_density < 20], [evaluate] returns level
    [Safe], [FoS = 100], the six strength and shear fields equal to [0]
    and the fixed water sentence: none of the soil or stability
    quantities enters the result. *)
Theorem water_override (f : FeatureSet) :
  Spec.waterOverride f ->
  Engine.evaluate f =
  {| level := Safe;
     reason := Engine.waterReason;
     details := {| FoS := 100;
                   cohesion_base := 0; friction_base := 0;
                   cohesion_effective := 0; friction_effective := 0;
                   shear_strength := 0; shear_stress := 0 |} |}.
Proof.
  intro H. apply isSeaOrWater_true in H.
  unfold Engine.evaluate, Engine.calculateLandslideRisk.
  now rewrite H.
Qed.

Lemma water_override_witness :
  (Spec.waterOverride Inputs.open_water /\
   level (Engine.evaluate Inputs.open_water) = Safe) /\
  (Spec.waterOverride Inputs.lagoon /\
   FoS (details (Engine.evaluate Inputs.lagoon)) = 100).
Proof.
  assert (H1 : Spec.waterOverride Inputs.open_water) by (left; reflexivity).
  assert (H2 : Spec.waterOverride Inputs.lagoon).
  { right. unfold Inputs.lagoon; simpl. rewrite Rabs_pos_eq by lra. lra. }
  split; (split; [assumption | ]).
  - now rewrite (water_override Inputs.open_water H1).
  - now rewrite (water_override Inputs.lagoon H2).
Defined.

(** C3. When the water override does not fire and the code is one of
    71, 73, 75, 77, 85, 86 or [temp < -1], [evaluate] returns level
    [High] with [FoS = 0.9] if [slope > 30], and level [Medium] with
    [FoS = 1.5] otherwise; the cohesion fields are [50], the friction
    fields [10], the shear fields [0].  In particular code 71 with
    slope 40 gives ([High], 0.9) and code 71 with slope 10 gives
    ([Medium], 1.5). *)
Theorem snow_override (f : FeatureSet) :
  ~ Spec.waterOverride f ->
  Spec.snowTrigger f ->
  let r := Engine.evaluate f in
  (slope f > 30 -> level r = High /\ FoS (details r) = 0.9) /\
  (~ slope f > 30 -> level r = Medium /\ FoS (details r) = 1.5) /\
  cohesion_base (details r) = 50 /\ cohesion_effective (details r) = 50 /\
  friction_base (details r) = 10 /\ friction_effective (details r) = 10 /\
  shear_strength (details r) = 0 /\ shear_stress (details r) = 0 /\
  reason r = Engine.snowReason /\
  (code f = 71%Z -> slope f = 40 -> level r = High /\ FoS (details r) = 0.9) /\
  (code f = 71%Z -> slope f = 10 -> level r = Medium /\ FoS (details r) = 1.5).
Proof.
  intros Hw Hs r. subst r.
  apply isSeaOrWater_false in Hw. apply isSnow_true in Hs.
  unfold Engine.evaluate, Engine.calculateLandslideRisk.
  rewrite Hw, Hs; cbn [level details FoS cohesion_base cohesion_effective
    friction_base friction_effective shear_strength shear_stress reason].
  js_cases; repeat split; intros; try reflexivity; try lra.
Qed.

Lemma not_water_at_altitude (f : FeatureSet) :
  isWater f = false -> elevation f > 5 -> ~ Spec.waterOverride f.
Proof. intros Hw He [H | H]; [congruence | lra]. Qed.

Lemma snow_override_witness :
  (level (Engine.evaluate Inputs.snowfall_steep) = High /\
   FoS (details (Engine.evaluate Inputs.snowfall_steep)) = 0.9) /\
  (level (Engine.evaluate Inputs.snowfall_gentle) = Medium /\
   FoS (details (Engine.evaluate Inputs.snowfall_gentle)) = 1.5).
Proof.
  split.
  - apply (snow_override Inputs.snowfall_steep).
    + apply not_water_at_altitude; [reflexivity | simpl; lra].
    + left; simpl; tauto.
    + reflexivity.
    + reflexivity.
  - apply (snow_override Inputs.snowfall_gentle).
    + apply not_water_at_altitude; [reflexivity | simpl; lra].
    + left; simpl; tauto.
    + reflexivity.
    + reflexivity.
Defined.

(** C10. [evaluate] returns level [Safe] exactly when the water override
    fires; on every other path the level is [Low], [Medium] or [High]. *)
Theorem safe_iff_water (f : FeatureSet) :
  (level (Engine.evaluate f) = Safe <-> Spec.waterOverride f) /\
  (~ Spec.waterOverride f ->
   level (Engine.evaluate f) = Low \/
   level (Engine.evaluate f) = Medium \/
   level (Engine.evaluate f) = High).
Proof.
  rewrite <- isSeaOrWater_true.
  unfold Engine.evaluate, Engine.calculateLandslideRisk.
  destruct (Engine.isSeaOrWater f).
  - cbn [level]. split; [tauto | intro H; now elim H].
  - assert (Hp := levelOf_not_Safe (Engine.probability f)).
    destruct (Engine.isSnow f); cbn [level].
    + destruct (Js.gt (slope f) 30);
        (split; [split; [discriminate | discriminate] | auto]).
    + destruct (Engine.levelOf (Engine.probability f));
        (split; [split; [congruence | discriminate] | intros _; try (now elim Hp); auto]).
Qed.

(** ** The normal-physics path *)

Lemma normalPath_inland (f : FeatureSet) :
  isWater f = false -> elevation f > 5 ->
  existsb (Z.eqb (code f)) Engine.snowCodes = false -> ~ temp f < -1 ->
  Engine.normalPath f.
Proof.
  intros Hw He Hc Ht. split.
  - apply isSeaOrWater_false. now apply not_water_at_altitude.
  - unfold Engine.isSnow. rewrite Hc. apply lt_false in Ht. now rewrite Ht.
Qed.

Ltac inland := apply normalPath_inland; [reflexivity | simpl; lra | reflexivity | simpl; lra].

Lemma saturationIndex_table (f : FeatureSet) :
  Spec.saturationTable (rain f) (Engine.saturationIndex f).
Proof.
  unfold Spec.saturationTable, Engine.saturationIndex.
  js_cases; repeat split; intros; try reflexivity; lra.
Qed.

Lemma u_table (f : FeatureSet) :
  Spec.porePressureTable (rain f) (Engine.sigma f) (Engine.u f).
Proof.
  unfold Spec.porePressureTable, Engine.u.
  js_cases; repeat split; intros; try lra.
Qed.

Lemma saturationTable_unique (r s s' : R) :
  Spec.saturationTable r s -> Spec.saturationTable r s' -> s = s'.
Proof.
  unfold Spec.saturationTable. intros (A1 & A2 & A3 & A4) (B1 & B2 & B3 & B4).
  destruct (Rgt_dec r 800); [rewrite A1, B1; auto |].
  destruct (Rgt_dec r 400); [rewrite A2, B2; auto |].
  destruct (Rgt_dec r 100); [rewrite A3, B3; auto |].
  rewrite A4, B4; auto.
Qed.

Lemma porePressureTable_unique (r sg p p' : R) :
  Spec.porePressureTable r sg p -> Spec.porePressureTable r sg p' -> p = p'.
Proof.
  unfold Spec.porePressureTable. intros (A1 & A2 & A3 & A4) (B1 & B2 & B3 & B4).
  destruct (Rgt_dec r 800); [rewrite A1, B1; auto |].
  destruct (Rgt_dec r 400); [rewrite A2, B2; auto |].
  destruct (Rgt_dec r 100); [rewrite A3, B3; auto |].
  rewrite A4, B4; auto.
Qed.

Lemma FoS1_steep (f : FeatureSet) :
  ~ slope f < 1 -> Engine.FoS1 f = Engine.FoS0 f.
Proof.
  intro H. apply lt_false in H.
  unfold Engine.FoS1, Engine.classify. now rewrite H.
Qed.

(** C1. On the normal-physics path with [slope >= 1], the returned [FoS]
    is [(c_used + max(0, sigma - u) * tan(phi_used * PI / 180)) /
    (gamma * z * sin(beta) * cos(beta) + 0.001)] with
    [gamma = (bulk_density / 100) * 9.81], [z = 3], [beta = slope * PI / 180],
    [sigma = gamma * z * cos(beta)^2], the saturation index [s] and the
    pore pressure [u] read from their rainfall tables,
    [c_used = max(0, c * (1 - 0.5 * s))] and
    [phi_used = max(5, phi * (1 - 0.3 * s))]. *)
Theorem stability_formula (f : FeatureSet) (s p : R) :
  Engine.normalPath f ->
  1 <= slope f ->
  Spec.saturationTable (rain f) s ->
  let gamma := (bulk_density f / 100) * 9.81 in
  let z := 3 in
  let beta := slope f * PI / 180 in
  let sigma := gamma * z * (cos beta * cos beta) in
  Spec.porePressureTable (rain f) sigma p ->
  let c := 35 * (clay f / 100) + 10 * (silt f / 100) + 1 * (sand f / 100) in
  let phi := 34 * (sand f / 100) + 28 * (silt f / 100) + 18 * (clay f / 100) in
  let c_used := Rmax 0 (c * (1 - 0.5 * s)) in
  let phi_used := Rmax 5 (phi * (1 - 0.3 * s)) in
  FoS (details (Engine.evaluate f)) =
  (c_used + Rmax 0 (sigma - p) * tan (phi_used * PI / 180)) /
  (gamma * z * sin beta * cos beta + 0.001).
Proof.
  intros Hn Hs Hsat gamma z beta sigma Hp c phi c_used phi_used.
  rewrite (normalPath_result f Hn); cbn [details FoS].
  rewrite FoS1_steep by lra.
  assert (Eb : Engine.beta f = beta) by (unfold Engine.beta, beta; lra).
  assert (Eg : Engine.gamma f = gamma) by reflexivity.
  assert (Es : Engine.sigma f = sigma).
  { unfold Engine.sigma, sigma, Js.pow2, Engine.z, z. rewrite Eb, Eg. lra. }
  assert (Esat : Engine.saturationIndex f = s)
    by (eapply saturationTable_unique; [apply saturationIndex_table | exact Hsat]).
  assert (Eu : Engine.u f = p).
  { eapply porePressureTable_unique; [| exact Hp].
    rewrite <- Es. apply u_table. }
  assert (Ec : Engine.c_used f = c_used).
  { unfold Engine.c_used, c_used, Engine.c_eff. rewrite Esat. f_equal.
    unfold Engine.c, Engine.fClay, Engine.fSilt, Engine.fSand, c. lra. }
  assert (Ephi : Engine.phi_used f = phi_used).
  { unfold Engine.phi_used, phi_used, Engine.phi_eff. rewrite Esat. f_equal.
    unfold Engine.phi, Engine.fClay, Engine.fSilt, Engine.fSand, phi. lra. }
  unfold Engine.FoS0, Engine.tau_resisting, Engine.tau_driving,
    Engine.sigma_effective, Engine.tanPhi.
  rewrite Ec, Ephi, Es, Eu, Eb, Eg. unfold Engine.z, z.
  replace (phi_used * (PI / 180)) with (phi_used * PI / 180) by lra.
  f_equal. lra.
Qed.

Lemma stability_formula_witness :
  let f := Inputs.hillside in
  let gamma := (130 / 100) * 9.81 in
  let beta := 20 * PI / 180 in
  let sigma := gamma * 3 * (cos beta * cos beta) in
  let c := 35 * (33 / 100) + 10 * (34 / 100) + 1 * (33 / 100) in
  let phi := 34 * (33 / 100) + 28 * (34 / 100) + 18 * (33 / 100) in
  Engine.normalPath f /\ 1 <= slope f /\
  FoS (details (Engine.evaluate f)) =
  (Rmax 0 (c * (1 - 0.5 * 0.1)) +
   Rmax 0 (sigma - 0) * tan (Rmax 5 (phi * (1 - 0.3 * 0.1)) * PI / 180)) /
  (gamma * 3 * sin beta * cos beta + 0.001).
Proof.
  intros f gamma beta sigma c phi.
  assert (Hn : Engine.normalPath f) by (unfold f; inland).
  assert (Hs : 1 <= slope f) by (simpl; lra).
  split; [exact Hn | split; [exact Hs | ]].
  apply (stability_formula f 0.1 0 Hn Hs).
  - unfold Spec.saturationTable; simpl; repeat split; intros; lra.
  - unfold Spec.porePressureTable; simpl; repeat split; intros; lra.
Defined.

(** ** Probability and level *)

Lemma classify_flat (f : FeatureSet) :
  slope f < 1 -> Engine.classify f = (20, 0.01).
Proof.
  intro H. apply lt_true in H. unfold Engine.classify. rewrite H.
  f_equal; lra.
Qed.

Lemma probability_table (f : FeatureSet) :
  ~ slope f < 1 ->
  Spec.probabilityTable (Engine.FoS0 f) (Engine.probability f).
Proof.
  intro H. apply lt_false in H.
  unfold Engine.probability, Engine.classify. rewrite H. cbn [snd].
  unfold Spec.probabilityTable.
  js_cases; repeat split; intros; try reflexivity; lra.
Qed.

(** C4. On the normal-physics path: if [slope < 1] then [FoS] is [20],
    the probability is [0.01] and the level is [Low]; otherwise [FoS] is
    the computed ratio, the probability is read from the table over
    [FoS], first match first; in both cases the level is [High] if the
    probability exceeds [0.7], [Medium] if it exceeds [0.3], else
    [Low]. *)
Theorem flat_or_table (f : FeatureSet) :
  Engine.normalPath f ->
  let r := Engine.evaluate f in
  (slope f < 1 ->
   FoS (details r) = 20 /\ Engine.probability f = 0.01 /\ level r = Low) /\
  (~ slope f < 1 ->
   FoS (details r) = Engine.tau_resisting f / (Engine.tau_driving f + 0.001) /\
   Spec.probabilityTable (FoS (details r)) (Engine.probability f)) /\
  Spec.levelTable (Engine.probability f) (level r).
Proof.
  intros Hn r. subst r.
  rewrite (normalPath_result f Hn); cbn [details FoS level].
  split; [| split].
  - intro Hs. unfold Engine.FoS1, Engine.probability.
    rewrite (classify_flat f Hs); cbn [fst snd].
    repeat split; try reflexivity.
    unfold Engine.levelOf. js_cases; try reflexivity; lra.
  - intro Hs. rewrite (FoS1_steep f Hs). split; [reflexivity |].
    now apply probability_table.
  - apply levelOf_table.
Qed.

Lemma flat_or_table_witness :
  (Engine.normalPath Inputs.plateau /\
   FoS (details (Engine.evaluate Inputs.plateau)) = 20 /\
   level (Engine.evaluate Inputs.plateau) = Low) /\
  (Engine.normalPath Inputs.hillside /\
   Spec.probabilityTable (FoS (details (Engine.evaluate Inputs.hillside)))
     (Engine.probability Inputs.hillside) /\
   Spec.levelTable (Engine.probability Inputs.hillside)
     (level (Engine.evaluate Inputs.hillside))).
Proof.
  assert (Hn : Engine.normalPath Inputs.plateau) by inland.
  assert (Hm : Engine.normalPath Inputs.hillside) by inland.
  split.
  - split; [exact Hn |].
    destruct (flat_or_table Inputs.plateau Hn) as (Hflat & _ & _).
    assert (Hs : slope Inputs.plateau < 1) by (simpl; lra).
    destruct (Hflat Hs) as (H1 & _ & H3).
    split; assumption.
  - split; [exact Hm |].
    destruct (flat_or_table Inputs.hillside Hm) as (_ & Htab & Hlev).
    assert (Hs : ~ slope Inputs.hillside < 1) by (simpl; lra).
    split; [exact (proj2 (Htab Hs)) | exact Hlev].
Defined.

(** ** Rounding by [toFixed] *)

Lemma nearest_bounds (y : R) :
  y - / 2 < IZR (Js.nearest y) <= y + / 2.
Proof.
  unfold Js.nearest. destruct (base_Int_part (y + / 2)) as [H1 H2]. lra.
Qed.

Lemma nearest_eq (y : R) (n : Z) :
  IZR n <= y + / 2 < IZR n + 1 -> Js.nearest y = n.
Proof.
  intro H. unfold Js.nearest. symmetry. apply Int_part_spec. lra.
Qed.

Lemma toFixedNumber_pos (d : nat) (x : R) (n : Z) :
  0 <= x < 10 ^ 21 ->
  IZR n <= x * 10 ^ d + / 2 < IZR n + 1 ->
  Js.toFixedNumber d x = IZR n / 10 ^ d.
Proof.
  intros Hx Hn. unfold Js.toFixedNumber.
  destruct (Rlt_dec x 0); [lra |].
  destruct (Rge_dec x (10 ^ 21)); [lra |].
  now rewrite (nearest_eq _ n Hn).
Qed.

Lemma toFixedNumber_close (x : R) :
  Rabs (Js.toFixedNumber 2 x - x) <= 0.005.
Proof.
  unfold Js.toFixedNumber.
  destruct (Rlt_dec x 0); [destruct (Rge_dec (- x) (10 ^ 21)) |
                           destruct (Rge_dec x (10 ^ 21))].
  - replace (x - x) with 0 by lra. rewrite Rabs_R0. lra.
  - destruct (nearest_bounds (- x * 10 ^ 2)) as [H1 H2].
    apply Rabs_le. simpl in *. lra.
  - replace (x - x) with 0 by lra. rewrite Rabs_R0. lra.
  - destruct (nearest_bounds (x * 10 ^ 2)) as [H1 H2].
    apply Rabs_le. simpl in *. lra.
Qed.

(** ** Baseline strengths *)

(** C5, as the code has it.  On the normal-physics path the reported
    [cohesion_base] is [35 fClay + 10 fSilt + 1 fSand] rounded to two
    decimals by [toFixed(2)], and [friction_base] is
    [34 fSand + 28 fSilt + 18 fClay] rounded the same way; each is
    within [0.005] of the unrounded blend. *)
Theorem baseline_rounded (f : FeatureSet) :
  Engine.normalPath f ->
  let fClay := clay f / 100 in
  let fSand := sand f / 100 in
  let fSilt := silt f / 100 in
  let d := details (Engine.evaluate f) in
  cohesion_base d = Js.toFixedNumber 2 (35 * fClay + 10 * fSilt + 1 * fSand) /\
  friction_base d = Js.toFixedNumber 2 (34 * fSand + 28 * fSilt + 18 * fClay) /\
  Rabs (cohesion_base d - (35 * fClay + 10 * fSilt + 1 * fSand)) <= 0.005 /\
  Rabs (friction_base d - (34 * fSand + 28 * fSilt + 18 * fClay)) <= 0.005.
Proof.
  intros Hn fClay fSand fSilt d. subst d.
  rewrite (normalPath_result f Hn); cbn [details cohesion_base friction_base].
  assert (Ec : Engine.c f = 35 * fClay + 10 * fSilt + 1 * fSand)
    by (unfold Engine.c, Engine.fClay, Engine.fSilt, Engine.fSand, fClay, fSilt, fSand; lra).
  assert (Ep : Engine.phi f = 34 * fSand + 28 * fSilt + 18 * fClay)
    by (unfold Engine.phi, Engine.fClay, Engine.fSilt, Engine.fSand, fClay, fSilt, fSand; lra).
  rewrite Ec, Ep.
  repeat split; try reflexivity; apply toFixedNumber_close.
Qed.

Lemma baseline_rounded_witness :
  Engine.normalPath Inputs.loam /\
  Rabs (cohesion_base (details (Engine.evaluate Inputs.loam)) -
        (35 * (33.3 / 100) + 10 * (33.4 / 100) + 1 * (33.3 / 100))) <= 0.005.
Proof.
  assert (Hn : Engine.normalPath Inputs.loam) by inland.
  split; [exact Hn |].
  exact (proj1 (proj2 (proj2 (baseline_rounded Inputs.loam Hn)))).
Defined.

(** C5, as stated, fails: with 33.3 percent clay, 33.3 percent sand and
    33.4 percent silt the blend is 15.328 and the reported
    [cohesion_base] is 15.33. *)
Lemma baseline_not_exact :
  let f := Inputs.loam in
  let d := details (Engine.evaluate f) in
  Engine.normalPath f /\
  35 * (clay f / 100) + 10 * (silt f / 100) + 1 * (sand f / 100) = 15.328 /\
  cohesion_base d = 15.33 /\
  ~ (cohesion_base d =
       35 * (clay f / 100) + 10 * (silt f / 100) + 1 * (sand f / 100) /\
     friction_base d =
       34 * (sand f / 100) + 28 * (silt f / 100) + 18 * (clay f / 100)).
Proof.
  intros f d.
  assert (Hn : Engine.normalPath f) by (unfold f; inland).
  assert (Hc : cohesion_base d = 15.33).
  { subst d. rewrite (normalPath_result f Hn); cbn [details cohesion_base].
    replace (Engine.c f) with 15.328
      by (unfold Engine.c, Engine.fClay, Engine.fSilt, Engine.fSand; simpl; lra).
    rewrite (toFixedNumber_pos 2 15.328 1533); simpl; lra. }
  assert (Hv : 35 * (clay f / 100) + 10 * (silt f / 100) + 1 * (sand f / 100) = 15.328)
    by (simpl; lra).
  split; [exact Hn | split; [exact Hv | split; [exact Hc |]]].
  intros [H _]. rewrite Hc, Hv in H. lra.
Qed.

(** ** The narrative *)

(** C8. On the normal-physics path the reason is the space-join of a
    sentence list in the order texture, slope, rain: exactly one texture
    sentence (clay-rich if [fClay > 0.45], else sandy if [fSand > 0.6],
    else the balanced mix), at most one slope sentence (steep if
    [slope > 35], flat if [slope < 5], none in between) and at most one
    rain sentence (critical if [rain > 400], else moderate if
    [rain > 100], else none). *)
Theorem reason_order (f : FeatureSet) :
  Engine.normalPath f ->
  exists texture slopePart rainPart : list Js.str,
    reason (Engine.evaluate f) = Js.join " " (texture ++ slopePart ++ rainPart) /\
    (clay f / 100 > 0.45 -> texture = [Engine.clayRich f]) /\
    (~ clay f / 100 > 0.45 -> sand f / 100 > 0.6 -> texture = [Engine.sandy f]) /\
    (~ clay f / 100 > 0.45 -> ~ sand f / 100 > 0.6 -> texture = [Engine.balanced]) /\
    length texture = 1%nat /\
    (slope f > 35 -> slopePart = [Engine.steep f]) /\
    (slope f < 5 -> slopePart = [Engine.flat f]) /\
    (5 <= slope f <= 35 -> slopePart = []) /\
    (length slopePart <= 1)%nat /\
    (rain f > 400 -> rainPart = [Engine.critical]) /\
    (~ rain f > 400 -> rain f > 100 -> rainPart = [Engine.moderate]) /\
    (~ rain f > 100 -> rainPart = []) /\
    (length rainPart <= 1)%nat.
Proof.
  intro Hn.
  exists (Engine.textureSentences f), (Engine.slopeSentences f),
    (Engine.rainSentences f).
  rewrite (normalPath_result f Hn); cbn [reason].
  split; [reflexivity |].
  unfold Engine.textureSentences, Engine.slopeSentences, Engine.rainSentences,
    Engine.fClay, Engine.fSand.
  js_cases; cbn [length]; repeat split; intros;
    try reflexivity; try lra; auto.
Qed.

Lemma reason_order_witness :
  Engine.normalPath Inputs.scenario /\
  reason (Engine.evaluate Inputs.scenario) =
  [Js.Text "The terrain is Clay-rich ("; Js.Fixed 0 60;
   Js.Text "%), which is cohesive but slippery when wet.";
   Js.Text " ";
   Js.Text "The slope is extremely steep ("; Js.Num 45;
   Js.Text "°), making it naturally unstable."].
Proof.
  assert (Hn : Engine.normalPath Inputs.scenario) by inland.
  split; [exact Hn |].
  destruct (reason_order Inputs.scenario Hn)
    as (tx & sl & rn & Hr & Ht & _ & _ & _ & Hs & _ & _ & _ & _ & _ & Hrn & _).
  rewrite Hr, Ht, Hs, Hrn; simpl; try lra.
  reflexivity.
Defined.

(** ** Texture fractions *)

Lemma fetchSoil_means (clay0 sand0 bd : R) :
  clay0 <> 0 ->
  Server.fetchSoil (Server.Means clay0 sand0 bd) =
  Server.mkSoil bd (clay0 / 10) (sand0 / 10)
    (if Js.lt (100 - clay0 / 10 - sand0 / 10) 0 then 0
     else 100 - clay0 / 10 - sand0 / 10) false.
Proof.
  intro H. unfold Server.fetchSoil, Js.falsy.
  destruct (Req_dec_T clay0 0); [contradiction | reflexivity].
Qed.

Lemma heavy_fields :
  Inputs.heavy = mkFeatures 0 0 (600 / 10) (600 / 10) 0 130 0 25 0%Z false.
Proof.
  unfold Inputs.heavy. rewrite fetchSoil_means by lra.
  unfold Server.features; simpl.
  replace (Js.lt (100 - 600 / 10 - 600 / 10) 0) with true; [reflexivity |].
  symmetry. apply lt_true. lra.
Qed.

Lemma mixed_fields :
  Inputs.mixed = mkFeatures 0 0 (250 / 10) (400 / 10) (100 - 250 / 10 - 400 / 10)
                   130 0 25 0%Z false.
Proof.
  unfold Inputs.mixed. rewrite fetchSoil_means by lra.
  unfold Server.features; simpl.
  replace (Js.lt (100 - 250 / 10 - 400 / 10) 0) with false; [reflexivity |].
  symmetry. apply lt_false. lra.
Qed.

(** C9, as the code has it.  For every feature record assembled from an
    answer of the soil collaborator, the fractions [fClay], [fSand] and
    [fSilt] sum to at most [1] exactly when [clay + sand <= 100]; in that
    case, unless the record is open water, they sum to [1]; and when
    [clay + sand > 100] the silt is floored at [0] and the fractions,
    which are not re-normalized, sum to [(clay + sand) / 100], which is
    more than [1]. *)
Theorem fractions_sum (a : Server.SoilAnswer) (w : Server.Weather)
    (t : Server.Topo) (m : option R) :
  let f := Server.features w (Server.fetchSoil a) t m in
  (Engine.fClay f + Engine.fSand f + Engine.fSilt f <= 1 <->
   clay f + sand f <= 100) /\
  (isWater f = false -> clay f + sand f <= 100 ->
   Engine.fClay f + Engine.fSand f + Engine.fSilt f = 1) /\
  (clay f + sand f > 100 ->
   silt f = 0 /\
   Engine.fClay f + Engine.fSand f + Engine.fSilt f = (clay f + sand f) / 100 /\
   Engine.fClay f + Engine.fSand f + Engine.fSilt f > 1).
Proof.
  intro f. subst f.
  unfold Engine.fClay, Engine.fSand, Engine.fSilt.
  destruct a as [ | | clay0 sand0 bd]; cbn.
  - split; [split | split]; intros; lra.
  - split; [split | split]; intros; lra.
  - destruct (Js.falsy clay0 && Js.falsy sand0 && Js.falsy bd); cbn.
    + split; [split; intros; lra | split; intros; [discriminate | lra]].
    + js_cases; (split; [split | split]); intros; try lra;
        (split; [| split]); lra.
Qed.

Lemma fractions_sum_witness :
  (isWater Inputs.mixed = false /\
   clay Inputs.mixed + sand Inputs.mixed <= 100 /\
   Engine.fClay Inputs.mixed + Engine.fSand Inputs.mixed +
   Engine.fSilt Inputs.mixed = 1) /\
  (clay Inputs.heavy + sand Inputs.heavy > 100 /\
   silt Inputs.heavy = 0 /\
   Engine.fClay Inputs.heavy + Engine.fSand Inputs.heavy +
   Engine.fSilt Inputs.heavy = (clay Inputs.heavy + sand Inputs.heavy) / 100).
Proof.
  assert (H1 : isWater Inputs.mixed = false) by (rewrite mixed_fields; reflexivity).
  assert (H2 : clay Inputs.mixed + sand Inputs.mixed <= 100)
    by (rewrite mixed_fields; simpl; lra).
  assert (H3 : clay Inputs.heavy + sand Inputs.heavy > 100)
    by (rewrite heavy_fields; simpl; lra).
  split.
  - split; [exact H1 | split; [exact H2 |]].
    exact (proj1 (proj2 (fractions_sum (Server.Means 250 400 130)
                           Inputs.weatherDefault Inputs.topoDefault None)) H1 H2).
  - split; [exact H3 |].
    destruct (proj2 (proj2 (fractions_sum (Server.Means 600 600 130)
                              Inputs.weatherDefault Inputs.topoDefault None)) H3)
      as (K1 & K2 & _).
    split; [exact K1 | exact K2].
Defined.

(** C9, as stated, fails: 60 percent clay and 60 percent sand leave a
    silt remainder floored at [0], and the fractions sum to [1.2]. *)
Lemma fractions_exceed_one :
  let f := Inputs.heavy in
  (0 <= clay f <= 100 /\ 0 <= sand f <= 100 /\ silt f = 0) /\
  Engine.normalPath f /\
  Engine.fClay f + Engine.fSand f + Engine.fSilt f = 1.2 /\
  ~ Engine.fClay f + Engine.fSand f + Engine.fSilt f <= 1.
Proof.
  intro f. subst f. rewrite heavy_fields.
  unfold Engine.fClay, Engine.fSand, Engine.fSilt; simpl.
  split; [repeat split; lra |].
  split; [| split; lra].
  split.
  - apply isSeaOrWater_false. intros [H | H]; simpl in H; [discriminate | lra].
  - unfold Engine.isSnow; simpl. apply lt_false. lra.
Qed.

(** ** Scenario 5 of the specification *)

Lemma tan_PI8_gt : 0.41 < tan (PI / 8).
Proof.
  assert (Hpi := PI_RGT_0).
  assert (Ht0 : 0 < tan (PI / 8)) by (apply tan_gt_0; lra).
  assert (Ht1 : tan (PI / 8) < 1).
  { rewrite <- tan_PI4. apply tan_increasing; lra. }
  assert (Hc8 : cos (PI / 8) <> 0).
  { apply Rgt_not_eq. apply cos_gt_0; lra. }
  assert (Hc4 : cos (2 * (PI / 8)) <> 0).
  { apply Rgt_not_eq. apply cos_gt_0; lra. }
  assert (Hd : 1 - tan (PI / 8) * tan (PI / 8) <> 0) by nra.
  assert (H2 := tan_2a (PI / 8) Hc8 Hc4 Hd).
  replace (2 * (PI / 8)) with (PI / 4) in H2 by lra.
  rewrite tan_PI4 in H2.
  assert (H3 : 1 - tan (PI / 8) * tan (PI / 8) = 2 * tan (PI / 8)).
  { apply (Rmult_eq_compat_r (1 - tan (PI / 8) * tan (PI / 8))) in H2.
    unfold Rdiv in H2. rewrite Rmult_assoc, Rinv_l in H2 by exact Hd. lra. }
  nra.
Qed.

Lemma tan_PI6_lt : tan (PI / 6) < 0.6.
Proof.
  rewrite tan_PI6.
  assert (H3 : sqrt 3 * sqrt 3 = 3) by (apply sqrt_sqrt; lra).
  assert (Hp : 0 < sqrt 3) by (apply sqrt_lt_R0; lra).
  assert (Hs : 5 / 3 < sqrt 3) by nra.
  apply Rmult_lt_reg_r with (sqrt 3); [exact Hp |].
  unfold Rdiv. rewrite Rmult_assoc, Rinv_l by lra. lra.
Qed.

Lemma sin_cos_PI4 : sin (PI / 4) * cos (PI / 4) = / 2 /\ cos (PI / 4) ^ 2 = / 2.
Proof.
  assert (H := sin2_cos2 (PI / 4)). unfold Rsqr in H.
  rewrite sin_PI4 in *. rewrite cos_PI4 in *. simpl. lra.
Qed.

Lemma scenario_tanPhi : 0.41 < Engine.tanPhi Inputs.scenario < 0.6.
Proof.
  assert (Hpi := PI_RGT_0).
  assert (Hphi : Engine.phi_used Inputs.scenario = 22.504).
  { unfold Engine.phi_used, Engine.phi_eff, Engine.phi, Engine.saturationIndex,
      Engine.fClay, Engine.fSand, Engine.fSilt; simpl.
    js_cases; try lra. unfold Rmax. destruct (Rle_dec _ _); lra. }
  unfold Engine.tanPhi. rewrite Hphi. split.
  - apply Rlt_trans with (tan (PI / 8)); [apply tan_PI8_gt |].
    apply tan_increasing; lra.
  - apply Rlt_trans with (tan (PI / 6)); [| apply tan_PI6_lt].
    apply tan_increasing; lra.
Qed.

Lemma scenario_FoS0 : 1.5 < Engine.FoS0 Inputs.scenario < 2.
Proof.
  destruct scenario_tanPhi as [Hl Hu].
  destruct sin_cos_PI4 as [Hsc Hcc].
  assert (Hb : Engine.beta Inputs.scenario = PI / 4)
    by (unfold Engine.beta; simpl; lra).
  assert (Hg : Engine.gamma Inputs.scenario = 12.753)
    by (unfold Engine.gamma; simpl; lra).
  assert (Hsig : Engine.sigma Inputs.scenario = 19.1295).
  { unfold Engine.sigma, Js.pow2, Engine.z. rewrite Hb, Hg, Hcc. lra. }
  assert (Htau : Engine.tau_driving Inputs.scenario = 19.1295).
  { unfold Engine.tau_driving, Engine.z. rewrite Hb, Hg.
    rewrite !Rmult_assoc, Hsc. lra. }
  assert (Hu0 : Engine.u Inputs.scenario = 0).
  { unfold Engine.u; simpl. js_cases; lra. }
  assert (Hse : Engine.sigma_effective Inputs.scenario = 19.1295).
  { unfold Engine.sigma_effective. rewrite Hsig, Hu0.
    unfold Rmax. destruct (Rle_dec _ _); lra. }
  assert (Hc : Engine.c_used Inputs.scenario = 22.04).
  { unfold Engine.c_used, Engine.c_eff, Engine.c, Engine.saturationIndex,
      Engine.fClay, Engine.fSand, Engine.fSilt; simpl.
    js_cases; try lra. unfold Rmax. destruct (Rle_dec _ _); lra. }
  unfold Engine.FoS0, Engine.tau_resisting. rewrite Hc, Hse, Htau.
  set (t := Engine.tanPhi Inputs.scenario) in *.
  split.
  - apply Rmult_lt_reg_r with (19.1295 + 0.001); [lra |].
    unfold Rdiv. rewrite Rmult_assoc, Rinv_l by lra. lra.
  - apply Rmult_lt_reg_r with (19.1295 + 0.001); [lra |].
    unfold Rdiv. rewrite Rmult_assoc, Rinv_l by lra. lra.
Qed.

Lemma scenario_normal : Engine.normalPath Inputs.scenario.
Proof. inland. Qed.

Lemma scenario_facts :
  let r := Engine.evaluate Inputs.scenario in
  cohesion_base (details r) = 23.2 /\
  friction_base (details r) = 23.2 /\
  Engine.saturationIndex Inputs.scenario = 0.1 /\
  1.5 < FoS (details r) < 2 /\
  Engine.probability Inputs.scenario = 0.20 /\
  level r = Low /\
  reason r = Js.join " " [Engine.clayRich Inputs.scenario;
                          Engine.steep Inputs.scenario].
Proof.
  intro r. subst r. rewrite (normalPath_result _ scenario_normal).
  cbn [details cohesion_base friction_base FoS level reason].
  assert (HF := scenario_FoS0).
  assert (Hs : ~ slope Inputs.scenario < 1) by (simpl; lra).
  assert (Hp : Engine.probability Inputs.scenario = 0.20).
  { destruct (probability_table _ Hs) as (_ & _ & _ & H4 & _). apply H4; lra. }
  split; [| split; [| split; [| split; [| split; [| split]]]]].
  - replace (Engine.c Inputs.scenario) with 23.2
      by (unfold Engine.c, Engine.fClay, Engine.fSilt, Engine.fSand; simpl; lra).
    rewrite (toFixedNumber_pos 2 23.2 2320); simpl; lra.
  - replace (Engine.phi Inputs.scenario) with 23.2
      by (unfold Engine.phi, Engine.fClay, Engine.fSilt, Engine.fSand; simpl; lra).
    rewrite (toFixedNumber_pos 2 23.2 2320); simpl; lra.
  - unfold Engine.saturationIndex; simpl. js_cases; lra.
  - now rewrite (FoS1_steep _ Hs).
  - exact Hp.
  - rewrite Hp. unfold Engine.levelOf. js_cases; try reflexivity; lra.
  - unfold Engine.sentences, Engine.textureSentences, Engine.slopeSentences,
      Engine.rainSentences, Engine.fClay; simpl.
    js_cases; try reflexivity; lra.
Qed.

(** C7, as the code has it.  For the features
    [{rain:0, slope:45, clay:60, sand:20, silt:20, bulk_density:130,
    elevation:500, temp:20, code:0, isWater:false}], [evaluate] reports
    [cohesion_base = 23.2] and [friction_base = 23.2], uses the
    saturation index [0.1], computes a [FoS] strictly between [1.5] and
    [2], hence the probability [0.20] and the level [Low], and its reason
    is the clay-rich sentence followed by the steep-slope sentence. *)
Theorem scenario_result :
  let r := Engine.evaluate Inputs.scenario in
  cohesion_base (details r) = 23.2 /\
  friction_base (details r) = 23.2 /\
  Engine.saturationIndex Inputs.scenario = 0.1 /\
  1.5 < FoS (details r) < 2 /\
  level r = Low /\
  reason r =
  [Js.Text "The terrain is Clay-rich ("; Js.Fixed 0 60;
   Js.Text "%), which is cohesive but slippery when wet.";
   Js.Text " ";
   Js.Text "The slope is extremely steep ("; Js.Num 45;
   Js.Text "°), making it naturally unstable."].
Proof.
  destruct scenario_facts as (H1 & H2 & H3 & H4 & _ & H6 & H7).
  cbv zeta. rewrite H7. repeat split; try assumption; apply H4.
Qed.

(** C7, as stated, fails: the reported [friction_base] is [23.2], not
    [23.6], and the level is [Low], neither [Medium] nor [High]. *)
Lemma scenario_not_as_expected :
  let r := Engine.evaluate Inputs.scenario in
  ~ (cohesion_base (details r) = 23.2 /\
     friction_base (details r) = 23.6 /\
     Engine.saturationIndex Inputs.scenario = 0.1 /\
     (level r = Medium \/ level r = High)) /\
  friction_base (details r) <> 23.6 /\
  level r <> Medium /\ level r <> High.
Proof.
  destruct scenario_facts as (H1 & H2 & H3 & H4 & _ & H6 & H7).
  cbv zeta. rewrite H2, H6.
  split; [intros (_ & H & _); lra |].
  split; [lra | split; discriminate].
Qed.

(** ** Monotonicity in rainfall *)

Section Rainfall.

Variable f : FeatureSet.
Variables r1 r2 : R.
Hypothesis texture : Spec.textureRange f.
Hypothesis density : 0 <= bulk_density f.
Hypothesis incline : 0 <= slope f <= 90.
Hypothesis more_rain : r1 <= r2.

Local Abbreviation g1 := (Spec.withRain r1 f).
Local Abbreviation g2 := (Spec.withRain r2 f).

Lemma saturationIndex_mono :
  0.1 <= Engine.saturationIndex g1 <= Engine.saturationIndex g2 /\
  Engine.saturationIndex g2 <= 1.
Proof using more_rain.
  clear texture density incline.
  unfold Engine.saturationIndex; cbn [rain Spec.withRain].
  js_cases; lra.
Qed.

Lemma c_nonneg : 0 <= Engine.c f.
Proof using texture.
  clear density incline more_rain.
  destruct texture as (Hc & Hs & Hl).
  unfold Engine.c, Engine.fClay, Engine.fSand, Engine.fSilt. lra.
Qed.

Lemma phi_bounds : 0 <= Engine.phi f <= 80.
Proof using texture.
  clear density incline more_rain.
  destruct texture as (Hc & Hs & Hl).
  unfold Engine.phi, Engine.fClay, Engine.fSand, Engine.fSilt. lra.
Qed.

Lemma c_used_mono : 0 <= Engine.c_used g2 <= Engine.c_used g1.
Proof using texture more_rain.
  clear density incline.
  destruct saturationIndex_mono as [[H1 H2] H3]. assert (Hc := c_nonneg).
  unfold Engine.c_used, Engine.c_eff.
  change (Engine.c g1) with (Engine.c f). change (Engine.c g2) with (Engine.c f).
  unfold Rmax; repeat destruct (Rle_dec _ _); nra.
Qed.

Lemma phi_used_mono :
  5 <= Engine.phi_used g2 <= Engine.phi_used g1 /\ Engine.phi_used g1 <= 80.
Proof using texture more_rain.
  clear density incline.
  destruct saturationIndex_mono as [[H1 H2] H3]. assert (Hp := phi_bounds).
  unfold Engine.phi_used, Engine.phi_eff.
  change (Engine.phi g1) with (Engine.phi f).
  change (Engine.phi g2) with (Engine.phi f).
  unfold Rmax; repeat destruct (Rle_dec _ _); nra.
Qed.

Lemma tanPhi_mono : 0 <= Engine.tanPhi g2 <= Engine.tanPhi g1.
Proof using texture more_rain.
  clear density incline.
  destruct phi_used_mono as [[H1 H2] H3]. assert (Hpi := PI_RGT_0).
  unfold Engine.tanPhi.
  set (a1 := Engine.phi_used g1) in *. set (a2 := Engine.phi_used g2) in *.
  assert (K2 : 0 < a2 * (PI / 180)) by nra.
  assert (K12 : a2 * (PI / 180) <= a1 * (PI / 180)) by nra.
  assert (K1 : a1 * (PI / 180) < PI / 2) by nra.
  split.
  - left. apply tan_gt_0; lra.
  - destruct K12 as [K | K].
    + left. apply tan_increasing; lra.
    + rewrite K. lra.
Qed.

Lemma sigma_nonneg : 0 <= Engine.sigma f.
Proof using density.
  clear texture incline more_rain.
  unfold Engine.sigma, Engine.gamma, Engine.z, Js.pow2.
  assert (H := pow2_ge_0 (cos (Engine.beta f))). nra.
Qed.

Lemma sigma_effective_mono :
  0 <= Engine.sigma_effective g2 <= Engine.sigma_effective g1.
Proof using density more_rain.
  clear texture incline.
  assert (Hs := sigma_nonneg).
  unfold Engine.sigma_effective, Engine.u.
  change (Engine.sigma g1) with (Engine.sigma f).
  change (Engine.sigma g2) with (Engine.sigma f).
  cbn [rain Spec.withRain].
  js_cases; unfold Rmax; repeat destruct (Rle_dec _ _); lra.
Qed.

Lemma friction_term_mono :
  Engine.sigma_effective g2 * Engine.tanPhi g2 <=
  Engine.sigma_effective g1 * Engine.tanPhi g1.
Proof using texture density more_rain.
  clear incline.
  destruct tanPhi_mono as [T1 T2]. destruct sigma_effective_mono as [S1 S2].
  apply Rmult_le_compat; assumption.
Qed.

Lemma tau_resisting_mono : Engine.tau_resisting g2 <= Engine.tau_resisting g1.
Proof using texture density more_rain.
  clear incline.
  destruct c_used_mono as [C1 C2]. assert (H := friction_term_mono).
  unfold Engine.tau_resisting. lra.
Qed.

Lemma tau_driving_nonneg : 0 <= Engine.tau_driving f.
Proof using density incline.
  clear texture more_rain.
  destruct incline as [Hs1 Hs2]. assert (Hpi := PI_RGT_0).
  unfold Engine.tau_driving, Engine.gamma, Engine.z.
  assert (B1 : 0 <= Engine.beta f) by (unfold Engine.beta; nra).
  assert (B2 : Engine.beta f <= PI / 2) by (unfold Engine.beta; nra).
  assert (S := sin_ge_0 (Engine.beta f) B1 ltac:(lra)).
  assert (C := cos_ge_0 (Engine.beta f) ltac:(lra) B2).
  assert (0 <= sin (Engine.beta f) * cos (Engine.beta f)) by nra.
  nra.
Qed.

Lemma FoS0_mono : Engine.FoS0 g2 <= Engine.FoS0 g1.
Proof using texture density incline more_rain.
  assert (Hd := tau_driving_nonneg). assert (Hn := tau_resisting_mono).
  unfold Engine.FoS0.
  change (Engine.tau_driving g1) with (Engine.tau_driving f).
  change (Engine.tau_driving g2) with (Engine.tau_driving f).
  unfold Rdiv. apply Rmult_le_compat_r; [| exact Hn].
  left. apply Rinv_0_lt_compat. lra.
Qed.

Lemma FoS1_mono : Engine.FoS1 g2 <= Engine.FoS1 g1.
Proof using texture density incline more_rain.
  unfold Engine.FoS1, Engine.classify.
  change (slope g1) with (slope f). change (slope g2) with (slope f).
  destruct (Js.lt (slope f) 1); cbn [fst]; [lra | apply FoS0_mono].
Qed.

End Rainfall.

(** From 50 to 150 the cohesion term drops strictly when the soil has
    some cohesion. *)
Lemma tau_resisting_strict (f : FeatureSet) :
  Spec.textureRange f -> 0 <= bulk_density f -> 0 < Engine.c f ->
  Engine.tau_resisting (Spec.withRain 150 f) <
  Engine.tau_resisting (Spec.withRain 50 f).
Proof.
  intros Ht Hb Hc.
  assert (Hle : 50 <= 150) by lra.
  assert (Hp := friction_term_mono f 50 150 Ht Hb Hle).
  assert (Hcu : Engine.c_used (Spec.withRain 150 f) <
                Engine.c_used (Spec.withRain 50 f)).
  { unfold Engine.c_used, Engine.c_eff, Engine.saturationIndex;
      cbn [rain Spec.withRain].
    change (Engine.c (Spec.withRain 150 f)) with (Engine.c f).
    change (Engine.c (Spec.withRain 50 f)) with (Engine.c f).
    js_cases; try lra. unfold Rmax; repeat destruct (Rle_dec _ _); nra. }
  unfold Engine.tau_resisting. lra.
Qed.

Lemma normalPath_withRain (f : FeatureSet) (r : R) :
  Engine.normalPath f -> Engine.normalPath (Spec.withRain r f).
Proof. intro H. exact H. Qed.

Lemma FoS_withRain (f : FeatureSet) (r : R) :
  Engine.normalPath f ->
  FoS (details (Engine.evaluate (Spec.withRain r f))) =
  Engine.FoS1 (Spec.withRain r f).
Proof.
  intro H. now rewrite (normalPath_result _ (normalPath_withRain f r H)).
Qed.

(** C6, as the code has it.  Holding every feature but the rainfall
    fixed, on the normal-physics path, for a slope between 0 and 90
    degrees, a non-negative bulk density and texture percentages between
    0 and 100, the returned [FoS] never increases as the rainfall goes
    through 50, 150, 450 and 850. *)
Theorem rain_monotone (f : FeatureSet) :
  Engine.normalPath f ->
  Spec.inRange f ->
  let fos := fun r => FoS (details (Engine.evaluate (Spec.withRain r f))) in
  fos 150 <= fos 50 /\ fos 450 <= fos 150 /\ fos 850 <= fos 450.
Proof.
  intros Hn (Hs & Hb & Ht) fos. subst fos; cbv beta.
  rewrite !(FoS_withRain f _ Hn).
  repeat split; apply FoS1_mono; try assumption; lra.
Qed.

Lemma rain_monotone_witness :
  let f := Inputs.hillside in
  let fos := fun r => FoS (details (Engine.evaluate (Spec.withRain r f))) in
  Engine.normalPath f /\ Spec.inRange f /\
  fos 150 <= fos 50 /\ fos 450 <= fos 150 /\ fos 850 <= fos 450.
Proof.
  intros f fos.
  assert (Hn : Engine.normalPath f) by (unfold f; inland).
  assert (Hr : Spec.inRange f)
    by (unfold Spec.inRange, Spec.textureRange, f; simpl; lra).
  split; [exact Hn | split; [exact Hr |]].
  exact (rain_monotone f Hn Hr).
Defined.

Lemma sin_cos_3PI4 : sin (3 * (PI / 4)) * cos (3 * (PI / 4)) = - / 2.
Proof.
  rewrite sin_3PI4, cos_3PI4.
  assert (H2 : sqrt 2 * sqrt 2 = 2) by (apply sqrt_sqrt; lra).
  assert (Hp : 0 < sqrt 2) by (apply sqrt_lt_R0; lra).
  replace (1 / sqrt 2 * (-1 / sqrt 2)) with (- / (sqrt 2 * sqrt 2))
    by (field; lra).
  now rewrite H2.
Qed.

(** C6, as stated, fails: on a slope of 135 degrees the driving stress
    is negative, so is the denominator of [FoS], and the returned [FoS]
    increases when the rainfall goes from 50 to 150. *)
Lemma rain_not_monotone :
  let f := Inputs.overhang in
  let fos := fun r => FoS (details (Engine.evaluate (Spec.withRain r f))) in
  Engine.normalPath f /\
  Engine.tau_driving f + 0.001 = -19.1285 /\
  fos 50 < fos 150 /\
  ~ (fos 150 <= fos 50 /\ fos 450 <= fos 150 /\ fos 850 <= fos 450).
Proof.
  intros f fos.
  assert (Hn : Engine.normalPath f) by (unfold f; inland).
  assert (Hd : Engine.tau_driving f + 0.001 = -19.1285).
  { unfold Engine.tau_driving, Engine.gamma, Engine.z, Engine.beta; simpl.
    replace (135 * (PI / 180)) with (3 * (PI / 4)) by lra.
    rewrite !Rmult_assoc, sin_cos_3PI4. lra. }
  assert (Hlt : fos 50 < fos 150).
  { subst fos; cbv beta. rewrite !(FoS_withRain f _ Hn).
    rewrite !FoS1_steep by (simpl; lra).
    assert (Hr : Engine.tau_resisting (Spec.withRain 150 f) <
                 Engine.tau_resisting (Spec.withRain 50 f)).
    { apply tau_resisting_strict.
      - unfold Spec.textureRange, f; simpl; lra.
      - simpl; lra.
      - unfold Engine.c, Engine.fClay, Engine.fSilt, Engine.fSand; simpl; lra. }
    unfold Engine.FoS0.
    change (Engine.tau_driving (Spec.withRain 150 f)) with (Engine.tau_driving f).
    change (Engine.tau_driving (Spec.withRain 50 f)) with (Engine.tau_driving f).
    rewrite Hd. unfold Rdiv.
    assert (Hi : / -19.1285 < 0) by (apply Rinv_lt_0_compat; lra).
    nra. }
  split; [exact Hn | split; [exact Hd | split; [exact Hlt |]]].
  intros (H & _). lra.
Qed.

(** ** More on [toFixed] *)

Lemma Int_part_le (a b : R) : a <= b -> (Int_part a <= Int_part b)%Z.
Proof.
  intro H.
  destruct (base_Int_part a) as [A1 A2]. destruct (base_Int_part b) as [B1 B2].
  assert (K : IZR (Int_part a) < IZR (Int_part b + 1)) by (rewrite plus_IZR; lra).
  apply lt_IZR in K. lia.
Qed.

Lemma nearest_le (a b : R) : a <= b -> (Js.nearest a <= Js.nearest b)%Z.
Proof. intro H. apply Int_part_le. lra. Qed.

Lemma pow10_pos (d : nat) : 0 < 10 ^ d.
Proof. apply pow_lt. lra. Qed.

(** Below [10^21] the rounded value does not pass [10^21]. *)
Lemma nearest_below_threshold (d : nat) (x : R) :
  0 <= x < 10 ^ 21 ->
  0 <= IZR (Js.nearest (x * 10 ^ d)) / 10 ^ d <= 10 ^ 21.
Proof.
  intros [H0 H1]. assert (Hp := pow10_pos d).
  destruct (nearest_bounds (x * 10 ^ d)) as [L U].
  assert (Hx : 0 <= x * 10 ^ d) by nra.
  split.
  - apply Rmult_le_pos; [| left; now apply Rinv_0_lt_compat].
    assert (K : IZR (-1) < IZR (Js.nearest (x * 10 ^ d))) by lra.
    apply lt_IZR in K. apply IZR_le. lia.
  - assert (E : 10 ^ 21 * 10 ^ d = IZR (10 ^ Z.of_nat (21 + d))).
    { rewrite <- pow_IZR, pow_add. reflexivity. }
    assert (K : IZR (Js.nearest (x * 10 ^ d)) < IZR (10 ^ Z.of_nat (21 + d) + 1)).
    { rewrite plus_IZR, <- E. nra. }
    apply lt_IZR in K.
    assert (K' : IZR (Js.nearest (x * 10 ^ d)) <= 10 ^ 21 * 10 ^ d).
    { rewrite E. apply IZR_le. lia. }
    apply Rmult_le_reg_r with (10 ^ d); [exact Hp |].
    unfold Rdiv. rewrite Rmult_assoc, Rinv_l by lra. lra.
Qed.

Lemma toFixedNumber_nonneg (d : nat) (x : R) :
  0 <= x -> 0 <= Js.toFixedNumber d x.
Proof.
  intro H. unfold Js.toFixedNumber.
  destruct (Rlt_dec x 0); [lra |].
  destruct (Rge_dec x (10 ^ 21)); [lra |].
  apply nearest_below_threshold. lra.
Qed.

Lemma toFixedNumber_opp (d : nat) (x : R) :
  x <> 0 -> Js.toFixedNumber d (- x) = - Js.toFixedNumber d x.
Proof.
  intro H. unfold Js.toFixedNumber.
  destruct (Rlt_dec (- x) 0), (Rlt_dec x 0); try lra.
  - destruct (Rge_dec (- - x) (10 ^ 21)), (Rge_dec x (10 ^ 21)); try lra.
    replace (- - x * 10 ^ d) with (x * 10 ^ d) by lra. reflexivity.
  - destruct (Rge_dec (- x) (10 ^ 21)); lra.
Qed.

Lemma toFixedNumber_mono_pos (d : nat) (x y : R) :
  0 <= x -> x <= y -> Js.toFixedNumber d x <= Js.toFixedNumber d y.
Proof.
  intros H0 H. assert (Hp := pow10_pos d). unfold Js.toFixedNumber.
  destruct (Rlt_dec x 0); [lra |]. destruct (Rlt_dec y 0); [lra |].
  destruct (Rge_dec x (10 ^ 21)), (Rge_dec y (10 ^ 21)); try lra.
  - destruct (nearest_below_threshold d x); lra.
  - unfold Rdiv. apply Rmult_le_compat_r; [left; now apply Rinv_0_lt_compat |].
    apply IZR_le, nearest_le. nra.
Qed.

(** [Number(x.toFixed(d))] is monotone in [x]. *)
Lemma toFixedNumber_mono (d : nat) (x y : R) :
  x <= y -> Js.toFixedNumber d x <= Js.toFixedNumber d y.
Proof.
  intro H.
  destruct (Rle_lt_dec 0 x) as [Hx | Hx].
  - now apply toFixedNumber_mono_pos.
  - destruct (Rle_lt_dec 0 y) as [Hy | Hy].
    + apply Rle_trans with 0; [| now apply toFixedNumber_nonneg].
      replace x with (- - x) by lra.
      rewrite (toFixedNumber_opp d (- x)) by lra.
      assert (K := toFixedNumber_nonneg d (- x)). lra.
    + replace x with (- - x) by lra. replace y with (- - y) by lra.
      rewrite (toFixedNumber_opp d (- x)), (toFixedNumber_opp d (- y)) by lra.
      assert (K := toFixedNumber_mono_pos d (- y) (- x)). lra.
Qed.

(** ** Level, safety factor and strengths of the engine *)

(** X1. On every path the level and the returned [FoS] agree: [Safe]
    comes with [FoS = 100], [High] with [FoS < 1.2], [Medium] with
    [1.2 <= FoS <= 1.5] and [Low] with [FoS >= 1.5]. *)
Theorem level_bounds_FoS (f : FeatureSet) :
  let r := Engine.evaluate f in
  match level r with
  | Safe => FoS (details r) = 100
  | High => FoS (details r) < 1.2
  | Medium => 1.2 <= FoS (details r) <= 1.5
  | Low => 1.5 <= FoS (details r)
  end.
Proof.
  unfold Engine.evaluate, Engine.calculateLandslideRisk.
  destruct (Engine.isSeaOrWater f); [reflexivity |].
  destruct (Engine.isSnow f); cbn [level details FoS].
  - js_cases; lra.
  - unfold Engine.probability, Engine.FoS1, Engine.classify, Engine.levelOf.
    set (a := Engine.FoS0 f).
    js_cases; cbn [fst snd]; js_cases; cbn [fst snd] in *; lra.
Qed.

Lemma toFixedNumber_five : Js.toFixedNumber 2 5 = 5.
Proof. rewrite (toFixedNumber_pos 2 5 500); simpl; lra. Qed.

(** X2. On the normal-physics path, whatever the inputs, the reported
    [cohesion_effective] is never negative and the reported
    [friction_effective] is never below 5 degrees. *)
Theorem effective_floors (f : FeatureSet) :
  Engine.normalPath f ->
  0 <= cohesion_effective (details (Engine.evaluate f)) /\
  5 <= friction_effective (details (Engine.evaluate f)).
Proof.
  intro Hn. rewrite (normalPath_result f Hn);
    cbn [details cohesion_effective friction_effective].
  split.
  - apply toFixedNumber_nonneg. unfold Engine.c_used. apply Rmax_l.
  - rewrite <- toFixedNumber_five at 1. apply toFixedNumber_mono.
    unfold Engine.phi_used. apply Rmax_l.
Qed.

Lemma effective_floors_witness :
  Engine.normalPath Inputs.overhang /\
  5 <= friction_effective (details (Engine.evaluate Inputs.overhang)).
Proof.
  assert (Hn : Engine.normalPath Inputs.overhang) by inland.
  split; [exact Hn | exact (proj2 (effective_floors Inputs.overhang Hn))].
Defined.

(** X3. On the normal-physics path with texture percentages between 0
    and 100, rain never raises a strength: the reported
    [cohesion_effective] is at most [cohesion_base], and the reported
    [friction_effective] is at most the larger of 5 and
    [friction_base]. *)
Theorem effective_below_base (f : FeatureSet) :
  Engine.normalPath f ->
  Spec.textureRange f ->
  let d := details (Engine.evaluate f) in
  cohesion_effective d <= cohesion_base d /\
  friction_effective d <= Rmax 5 (friction_base d).
Proof.
  intros Hn Ht d. subst d. rewrite (normalPath_result f Hn);
    cbn [details cohesion_effective friction_effective cohesion_base friction_base].
  assert (Hc := c_nonneg f Ht). destruct (phi_bounds f Ht) as [Hp _].
  assert (Hs : 0.1 <= Engine.saturationIndex f <= 1)
    by (unfold Engine.saturationIndex; js_cases; lra).
  split.
  - apply toFixedNumber_mono. unfold Engine.c_used, Engine.c_eff.
    unfold Rmax; destruct (Rle_dec _ _); nra.
  - destruct (Rle_lt_dec (Engine.phi f) 5) as [H5 | H5].
    + replace (Engine.phi_used f) with 5.
      * rewrite toFixedNumber_five. apply Rmax_l.
      * unfold Engine.phi_used, Engine.phi_eff.
        unfold Rmax; destruct (Rle_dec _ _); nra.
    + apply Rle_trans with (Js.toFixedNumber 2 (Engine.phi f)); [| apply Rmax_r].
      apply toFixedNumber_mono. unfold Engine.phi_used, Engine.phi_eff.
      unfold Rmax; destruct (Rle_dec _ _); nra.
Qed.

Lemma effective_below_base_witness :
  Engine.normalPath Inputs.loam /\ Spec.textureRange Inputs.loam /\
  cohesion_effective (details (Engine.evaluate Inputs.loam)) <=
  cohesion_base (details (Engine.evaluate Inputs.loam)).
Proof.
  assert (Hn : Engine.normalPath Inputs.loam) by inland.
  assert (Ht : Spec.textureRange Inputs.loam)
    by (unfold Spec.textureRange; simpl; lra).
  split; [exact Hn | split; [exact Ht |]].
  exact (proj1 (effective_below_base Inputs.loam Hn Ht)).
Defined.

(** X4. On the normal-physics path, for a slope between 0 and 90
    degrees, a non-negative bulk density and texture percentages between
    0 and 100, the returned [FoS], [shear_strength] and [shear_stress]
    are never negative. *)
Theorem in_range_nonnegative (f : FeatureSet) :
  Engine.normalPath f ->
  Spec.inRange f ->
  let d := details (Engine.evaluate f) in
  0 <= FoS d /\ 0 <= shear_strength d /\ 0 <= shear_stress d.
Proof.
  intros Hn (Hs & Hb & Ht) d. subst d. rewrite (normalPath_result f Hn);
    cbn [details FoS shear_strength shear_stress].
  assert (Hle : rain f <= rain f) by lra.
  assert (Hd := tau_driving_nonneg f Hb Hs).
  destruct (c_used_mono f (rain f) (rain f) Ht Hle) as [C _].
  destruct (tanPhi_mono f (rain f) (rain f) Ht Hle) as [T _].
  destruct (sigma_effective_mono f (rain f) (rain f) Hb Hle) as [S _].
  assert (E : Spec.withRain (rain f) f = f) by (destruct f; reflexivity).
  rewrite E in C, T, S.
  assert (Hr : 0 <= Engine.tau_resisting f).
  { unfold Engine.tau_resisting.
    assert (0 <= Engine.sigma_effective f * Engine.tanPhi f)
      by (apply Rmult_le_pos; assumption).
    lra. }
  repeat split; try assumption.
  unfold Engine.FoS1, Engine.classify.
  destruct (Js.lt (slope f) 1); cbn [fst]; [lra |].
  unfold Engine.FoS0, Rdiv. apply Rmult_le_pos; [exact Hr |].
  left. apply Rinv_0_lt_compat. lra.
Qed.

Lemma in_range_nonnegative_witness :
  Engine.normalPath Inputs.hillside /\ Spec.inRange Inputs.hillside /\
  0 <= FoS (details (Engine.evaluate Inputs.hillside)).
Proof.
  assert (Hn : Engine.normalPath Inputs.hillside) by inland.
  assert (Hr : Spec.inRange Inputs.hillside)
    by (unfold Spec.inRange, Spec.textureRange; simpl; lra).
  split; [exact Hn | split; [exact Hr |]].
  exact (proj1 (in_range_nonnegative Inputs.hillside Hn Hr)).
Defined.

(** ** Any two rainfalls *)

(** X5. Within the same ranges and on the normal-physics path, for any
    two rainfalls [r1 <= r2] the [FoS] at [r2] is at most the [FoS] at
    [r1]. *)
Theorem rain_antitone (f : FeatureSet) (r1 r2 : R) :
  Engine.normalPath f ->
  Spec.inRange f ->
  r1 <= r2 ->
  FoS (details (Engine.evaluate (Spec.withRain r2 f))) <=
  FoS (details (Engine.evaluate (Spec.withRain r1 f))).
Proof.
  intros Hn (Hs & Hb & Ht) Hle.
  rewrite !(FoS_withRain f _ Hn). now apply FoS1_mono.
Qed.

Lemma rain_antitone_witness :
  Engine.normalPath Inputs.hillside /\ Spec.inRange Inputs.hillside /\
  12.5 <= 1203 /\
  FoS (details (Engine.evaluate (Spec.withRain 1203 Inputs.hillside))) <=
  FoS (details (Engine.evaluate (Spec.withRain 12.5 Inputs.hillside))).
Proof.
  assert (Hn : Engine.normalPath Inputs.hillside) by inland.
  assert (Hr : Spec.inRange Inputs.hillside)
    by (unfold Spec.inRange, Spec.textureRange; simpl; lra).
  assert (Hle : 12.5 <= 1203) by lra.
  split; [exact Hn | split; [exact Hr | split; [exact Hle |]]].
  exact (rain_antitone Inputs.hillside 12.5 1203 Hn Hr Hle).
Defined.

Lemma levelOf_probability_mono (f : FeatureSet) (r1 r2 : R) :
  Spec.inRange f -> r1 <= r2 ->
  (Risk.severity (Engine.levelOf (Engine.probability (Spec.withRain r1 f))) <=
   Risk.severity (Engine.levelOf (Engine.probability (Spec.withRain r2 f))))%nat.
Proof.
  intros (Hs & Hb & Ht) Hle.
  assert (H := FoS0_mono f r1 r2 Ht Hb Hs Hle).
  unfold Engine.probability, Engine.classify, Engine.levelOf.
  change (slope (Spec.withRain r1 f)) with (slope f).
  change (slope (Spec.withRain r2 f)) with (slope f).
  set (a := Engine.FoS0 (Spec.withRain r1 f)) in *.
  set (b := Engine.FoS0 (Spec.withRain r2 f)) in *.
  unfold Js.lt.
  destruct (Rlt_dec (slope f) 1); cbn [snd].
  - js_cases; cbn [Risk.severity]; lia.
  - destruct (Rlt_dec a 1.0), (Rlt_dec a 1.2), (Rlt_dec a 1.5), (Rlt_dec a 2.0);
      try (exfalso; lra);
      destruct (Rlt_dec b 1.0), (Rlt_dec b 1.2), (Rlt_dec b 1.5), (Rlt_dec b 2.0);
      try (exfalso; lra);
      cbn [snd]; js_cases; cbn [Risk.severity]; try lia; exfalso; lra.
Qed.

(** X6. Within the same ranges and on the normal-physics path, more rain
    never lowers the level: for [r1 <= r2] the level at [r2] is at least
    as alarming as the level at [r1]. *)
Theorem level_monotone_in_rain (f : FeatureSet) (r1 r2 : R) :
  Engine.normalPath f ->
  Spec.inRange f ->
  r1 <= r2 ->
  (Risk.severity (level (Engine.evaluate (Spec.withRain r1 f))) <=
   Risk.severity (level (Engine.evaluate (Spec.withRain r2 f))))%nat.
Proof.
  intros Hn Hr Hle.
  rewrite !(normalPath_result _ (normalPath_withRain f _ Hn)); cbn [level].
  now apply levelOf_probability_mono.
Qed.

Lemma level_monotone_in_rain_witness :
  Engine.normalPath Inputs.hillside /\ Spec.inRange Inputs.hillside /\
  0 <= 900 /\
  (Risk.severity (level (Engine.evaluate (Spec.withRain 0 Inputs.hillside))) <=
   Risk.severity (level (Engine.evaluate (Spec.withRain 900 Inputs.hillside))))%nat.
Proof.
  assert (Hn : Engine.normalPath Inputs.hillside) by inland.
  assert (Hr : Spec.inRange Inputs.hillside)
    by (unfold Spec.inRange, Spec.textureRange; simpl; lra).
  assert (Hle : 0 <= 900) by lra.
  split; [exact Hn | split; [exact Hr | split; [exact Hle |]]].
  exact (level_monotone_in_rain Inputs.hillside 0 900 Hn Hr Hle).
Defined.

(** ** The terrain fetcher *)

Lemma toFixedNumber_zero (d : nat) : Js.toFixedNumber d 0 = 0.
Proof.
  rewrite (toFixedNumber_pos d 0 0).
  - unfold Rdiv. lra.
  - split; [lra | apply pow_lt; lra].
  - lra.
Qed.

Lemma toFixedNumber_ninety : Js.toFixedNumber 1 90 = 90.
Proof. rewrite (toFixedNumber_pos 1 90 900); simpl; lra. Qed.

Lemma slopeDeg_range (rise : R) :
  0 <= rise -> 0 <= atan rise * (180 / PI) < 90.
Proof.
  intro H. assert (Hpi := PI_RGT_0).
  destruct (atan_bound rise) as [_ Hu].
  assert (H0 : 0 <= atan rise).
  { destruct H as [H | H].
    - left. rewrite <- atan_0. now apply atan_increasing.
    - rewrite <- H, atan_0. lra. }
  assert (Hk : 0 < 180 / PI) by (apply Rdiv_lt_0_compat; lra).
  split; [apply Rmult_le_pos; lra |].
  apply Rmult_lt_reg_r with (PI / 180); [lra |].
  rewrite Rmult_assoc.
  replace (180 / PI * (PI / 180)) with 1 by (field; lra). lra.
Qed.

Lemma rounded_slope_range (rise : R) :
  0 <= rise -> 0 <= Js.toFixedNumber 1 (atan rise * (180 / PI)) <= 90.
Proof.
  intro H. destruct (slopeDeg_range rise H) as [L U]. split.
  - now apply toFixedNumber_nonneg.
  - rewrite <- toFixedNumber_ninety. apply toFixedNumber_mono. lra.
Qed.

(** X7. Whatever the elevation service answers, the slope that
    [calculateSlope] returns lies between 0 and 90 degrees. *)
Theorem calculateSlope_range (a : Fetch.ElevationAnswer) :
  0 <= Server.topo_slope (Fetch.calculateSlope a) <= 90.
Proof.
  destruct a as [| e]; cbn [Fetch.calculateSlope Server.topo_slope].
  - lra.
  - apply rounded_slope_range, sqrt_pos.
Qed.

(** X8. When the northern and the eastern elevation are missing or equal
    to the first one, [calculateSlope] returns the first elevation (0
    when it is missing too) and the slope 0. *)
Theorem calculateSlope_level (es : list (option R)) :
  let h0 := Fetch.at_or es 0 0 in
  Fetch.at_or es 1 h0 = h0 ->
  Fetch.at_or es 2 h0 = h0 ->
  Fetch.calculateSlope (Fetch.ElevationData (Some es)) = Server.mkTopo h0 0.
Proof.
  intros h0 H1 H2. cbn [Fetch.calculateSlope]. fold h0. rewrite H1, H2.
  f_equal.
  replace ((h0 - h0) / 220 * ((h0 - h0) / 220) + (h0 - h0) / 220 * ((h0 - h0) / 220))
    with 0 by (unfold Rdiv; ring).
  rewrite sqrt_0, atan_0, Rmult_0_l. apply toFixedNumber_zero.
Qed.

Lemma calculateSlope_level_witness :
  Fetch.calculateSlope (Fetch.ElevationData (Some [Some 812; None])) =
  Server.mkTopo 812 0.
Proof.
  apply (calculateSlope_level [Some 812; None]); reflexivity.
Defined.

(** X9. The returned slope grows with the squared gradient: of two
    triples of elevations, the one whose squared differences to the first
    elevation sum to more never gets the smaller slope.  In particular
    the slope depends on the differences only. *)
Theorem calculateSlope_monotone (h0 hN hE k0 kN kE : R) :
  (hE - h0) * (hE - h0) + (hN - h0) * (hN - h0) <=
  (kE - k0) * (kE - k0) + (kN - k0) * (kN - k0) ->
  Server.topo_slope
    (Fetch.calculateSlope (Fetch.ElevationData (Some [Some h0; Some hN; Some hE]))) <=
  Server.topo_slope
    (Fetch.calculateSlope (Fetch.ElevationData (Some [Some k0; Some kN; Some kE]))).
Proof.
  intro H. cbn [Fetch.calculateSlope Server.topo_slope Fetch.at_or nth_error].
  assert (Hpi := PI_RGT_0).
  assert (Hk : 0 < 180 / PI) by (apply Rdiv_lt_0_compat; lra).
  apply toFixedNumber_mono. apply Rmult_le_compat_r; [lra |].
  match goal with
  | |- atan ?x <= atan ?y =>
      assert (Hxy : x <= y);
      [| destruct Hxy as [Hxy | Hxy];
         [left; now apply atan_increasing | rewrite Hxy; lra]]
  end.
  apply sqrt_le_1_alt. unfold Rdiv. nra.
Qed.

Lemma calculateSlope_monotone_witness :
  Server.topo_slope
    (Fetch.calculateSlope (Fetch.ElevationData (Some [Some 100; Some 103; Some 96]))) <=
  Server.topo_slope
    (Fetch.calculateSlope (Fetch.ElevationData (Some [Some 500; Some 495; Some 500]))).
Proof.
  apply (calculateSlope_monotone 100 103 96 500 495 500). lra.
Defined.

(** ** The weather fetcher *)

Lemma nth_error_last (A : Type) (l : list A) (d : A) :
  l <> [] -> nth_error l (length l - 1) = Some (last l d).
Proof.
  intro H. destruct (exists_last H) as (l' & a & ->).
  rewrite last_last, length_app; cbn [length].
  replace (length l' + 1 - 1)%nat with (length l') by lia.
  rewrite nth_error_app2 by lia. now rewrite Nat.sub_diag.
Qed.

Lemma entry_last (xs : list R) (n : nat) (d e : R) :
  n <> 0%nat -> length xs = n ->
  Fetch.entry (Some xs) (Nat.max 0 (n - 1)) d = last xs e.
Proof.
  intros Hn Hl. unfold Fetch.entry. rewrite Nat.max_0_l, <- Hl.
  rewrite (nth_error_last R xs e); [reflexivity |].
  intro E. subst xs. cbn in Hl. congruence.
Qed.

Lemma entry_missing (xs : list R) (i : nat) (d : R) :
  (length xs <= i)%nat -> Fetch.entry (Some xs) i d = d.
Proof.
  intro H. unfold Fetch.entry.
  apply nth_error_None in H. now rewrite H.
Qed.

(** X10. When the hourly arrays are as long as the non-empty [time]
    array, [fetchWeather] reports the last temperature, the last humidity
    and the last precipitation, and ten times that precipitation as
    rain; the current temperature is not used. *)
Theorem fetchWeather_last (ts : list string) (temps hums precs : list R)
    (cw : option Fetch.CurrentWeather) (d : R) :
  ts <> [] ->
  length temps = length ts ->
  length hums = length ts ->
  length precs = length ts ->
  let r := Fetch.fetchWeather
             (Fetch.WeatherData
                (Some (Fetch.mkHourly (Some ts) (Some temps) (Some hums) (Some precs)))
                cw) in
  Fetch.report_temp r = last temps d /\
  Fetch.report_humidity r = last hums d /\
  Fetch.report_precip_real r = last precs d /\
  Fetch.report_rain r = last precs d * 10.
Proof.
  intros Hts H1 H2 H3 r. subst r.
  assert (Hn : length ts <> 0%nat) by (destruct ts; [congruence | discriminate]).
  cbn [Fetch.fetchWeather Fetch.time Fetch.temperature_2m
       Fetch.relativehumidity_2m Fetch.precipitation
       Fetch.report_temp Fetch.report_humidity Fetch.report_precip_real
       Fetch.report_rain].
  rewrite (entry_last temps _ _ d Hn H1), (entry_last hums _ _ d Hn H2),
    (entry_last precs _ _ d Hn H3).
  repeat split.
Qed.

Lemma fetchWeather_last_witness :
  let r := Fetch.fetchWeather
             (Fetch.WeatherData
                (Some (Fetch.mkHourly (Some ["t0"; "t1"; "t2"]%string)
                         (Some [18; 19; 21]) (Some [60; 70; 80]) (Some [0; 1; 3.5])))
                None) in
  Fetch.report_temp r = 21 /\ Fetch.report_humidity r = 80 /\
  Fetch.report_precip_real r = 3.5 /\ Fetch.report_rain r = 3.5 * 10.
Proof.
  apply (fetchWeather_last ["t0"; "t1"; "t2"]%string [18; 19; 21] [60; 70; 80]
           [0; 1; 3.5] None 0); try reflexivity.
  discriminate.
Defined.

(** X11. When an hourly array is shorter than the [time] array, so that
    it has no entry at the last index, [fetchWeather] falls back for that
    array, whatever the other arrays hold: to the current temperature,
    or 25 without one, for the temperature, to 50 for the humidity, and
    to 0 for the precipitation and the rain. *)
Theorem fetchWeather_short (ts : list string) (temps hums precs : list R)
    (cw : option Fetch.CurrentWeather) :
  let r := Fetch.fetchWeather
             (Fetch.WeatherData
                (Some (Fetch.mkHourly (Some ts) (Some temps) (Some hums) (Some precs)))
                cw) in
  ((length temps < length ts)%nat ->
   Fetch.report_temp r =
     match cw with
     | Some c => match Fetch.temperature c with Some t => t | None => 25 end
     | None => 25
     end) /\
  ((length hums < length ts)%nat -> Fetch.report_humidity r = 50) /\
  ((length precs < length ts)%nat ->
   Fetch.report_precip_real r = 0 /\ Fetch.report_rain r = 0).
Proof.
  intro r. subst r.
  cbn [Fetch.fetchWeather Fetch.time Fetch.temperature_2m
       Fetch.relativehumidity_2m Fetch.precipitation
       Fetch.report_temp Fetch.report_humidity Fetch.report_precip_real
       Fetch.report_rain].
  rewrite Nat.max_0_l.
  split; [| split].
  - intro H. now rewrite entry_missing by lia.
  - intro H. now rewrite entry_missing by lia.
  - intro H. rewrite entry_missing by lia. split; [reflexivity | lra].
Qed.

Lemma fetchWeather_short_witness :
  let r := Fetch.fetchWeather
             (Fetch.WeatherData
                (Some (Fetch.mkHourly (Some ["t0"; "t1"; "t2"]%string)
                         (Some [18; 19]) (Some [60; 70; 80]) (Some [4])))
                (Some (Fetch.mkCurrent (Some 17) None))) in
  Fetch.report_temp r = 17 /\ Fetch.report_humidity r = 80 /\
  Fetch.report_precip_real r = 0 /\ Fetch.report_rain r = 0.
Proof.
  destruct (fetchWeather_short ["t0"; "t1"; "t2"]%string [18; 19] [60; 70; 80] [4]
              (Some (Fetch.mkCurrent (Some 17) None))) as (Ht & _ & Hp).
  split; [apply Ht; cbn; lia |].
  split; [reflexivity |].
  apply Hp; cbn; lia.
Defined.

(** ** The soil fetcher *)

(** X12. For clay and sand means between 0 and 1000 per mille and a
    non-negative bulk density, and also when the request fails or has no
    properties, [fetchSoil] returns clay, sand and silt percentages
    between 0 and 100 and a non-negative bulk density. *)
Theorem fetchSoil_in_range (a : Server.SoilAnswer) :
  Range.soilMeans a ->
  let s := Server.fetchSoil a in
  0 <= Server.soil_clay s <= 100 /\
  0 <= Server.soil_sand s <= 100 /\
  0 <= Server.soil_silt s <= 100 /\
  0 <= Server.soil_bulk_density s.
Proof.
  destruct a as [| | c0 s0 b]; cbn [Range.soilMeans Server.fetchSoil].
  - intros _. cbn. lra.
  - intros _. cbn. lra.
  - intros (Hc & Hs & Hb).
    destruct (Js.falsy c0 && Js.falsy s0 && Js.falsy b); cbn; [lra |].
    js_cases; lra.
Qed.

Lemma fetchSoil_in_range_witness :
  Range.soilMeans (Server.Means 250 400 130) /\
  0 <= Server.soil_silt (Server.fetchSoil (Server.Means 250 400 130)) <= 100.
Proof.
  assert (H : Range.soilMeans (Server.Means 250 400 130)) by (cbn; lra).
  split; [exact H |].
  exact (proj1 (proj2 (proj2 (fetchSoil_in_range _ H)))).
Defined.

(** X13. [fetchSoil] reports open water exactly when the answer has
    properties and the clay mean, the sand mean and the bulk density are
    all zero; a failed request and an answer without properties are
    never water. *)
Theorem fetchSoil_water_iff (a : Server.SoilAnswer) :
  Server.soil_isWater (Server.fetchSoil a) = true <-> a = Server.Means 0 0 0.
Proof.
  destruct a as [| | c0 s0 b]; cbn [Server.fetchSoil].
  - split; discriminate.
  - split; discriminate.
  - unfold Js.falsy.
    destruct (Req_dec_T c0 0), (Req_dec_T s0 0), (Req_dec_T b 0);
      cbn; split; intro H; try discriminate; try congruence;
      try (subst; reflexivity); injection H; intros; contradiction.
Qed.

Lemma getValFromLayers_absent (ls : list Fetch.Layer) (nm : string) :
  Forall (fun l => Fetch.name l <> nm) ls -> Fetch.getValFromLayers ls nm = 0.
Proof.
  intro H. unfold Fetch.getValFromLayers.
  replace (find (fun l => String.eqb (Fetch.name l) nm) ls) with (@None Fetch.Layer);
    [reflexivity |].
  symmetry. induction H as [| l ls' Hl _ IH]; [reflexivity |].
  cbn. apply String.eqb_neq in Hl. now rewrite Hl.
Qed.

Lemma falsy_zero : Js.falsy 0 = true.
Proof. unfold Js.falsy. destruct (Req_dec_T 0 0); [reflexivity | contradiction]. Qed.

Lemma falsy_nonzero (x : R) : x <> 0 -> Js.falsy x = false.
Proof. intro H. unfold Js.falsy. destruct (Req_dec_T x 0); [contradiction | reflexivity]. Qed.

Lemma fallbackTo_nonzero (x : R) (d : option Fetch.Depth) :
  x <> 0 -> Fetch.fallbackTo x d = x.
Proof. intro H. unfold Fetch.fallbackTo. now rewrite (falsy_nonzero x H). Qed.

(** X14. An answer whose properties hold no layer named clay, sand or
    bdod and no direct clay, sand or bdod entry is taken for open water:
    [fetchSoil] returns the all-zero water record. *)
Theorem fetchSoil_without_data (ls : option (list Fetch.Layer)) :
  (forall l, ls = Some l ->
     Forall (fun x => Fetch.name x <> "clay"%string /\
                      Fetch.name x <> "sand"%string /\
                      Fetch.name x <> "bdod"%string) l) ->
  Fetch.fetchSoil (Fetch.SoilData (Some (Fetch.mkProperties ls None None None))) =
  Server.soilWater.
Proof.
  intro H. unfold Fetch.fetchSoil, Fetch.soilAnswer; cbn [Fetch.layers
    Fetch.prop_clay Fetch.prop_sand Fetch.prop_bdod].
  assert (E : forall nm, (nm = "clay" \/ nm = "sand" \/ nm = "bdod")%string ->
              Fetch.getValFromLayers (match ls with Some l => l | None => [] end) nm = 0).
  { intros nm Hnm. apply getValFromLayers_absent.
    destruct ls as [l |]; [| constructor].
    specialize (H l eq_refl). eapply Forall_impl; [| exact H].
    intros x (H1 & H2 & H3). destruct Hnm as [-> | [-> | ->]]; assumption. }
  rewrite !E by auto.
  unfold Fetch.fallbackTo. rewrite falsy_zero.
  unfold Server.fetchSoil. now rewrite falsy_zero.
Qed.

Lemma fetchSoil_without_data_witness :
  Fetch.fetchSoil
    (Fetch.SoilData
       (Some (Fetch.mkProperties
                (Some [Fetch.mkLayer "phh2o" (Some [Fetch.mkDepth (Some (Fetch.mkValues (Some 62)))])])
                None None None))) =
  Server.soilWater.
Proof.
  apply fetchSoil_without_data.
  intros l E. injection E as <-.
  constructor; [| constructor].
  cbn. repeat split; discriminate.
Defined.

(** X15. When the first layer named clay carries a non-zero mean at its
    first depth, that mean, divided by 10, is the clay percentage that
    [fetchSoil] returns, whatever the direct clay entry holds, and the
    record is not water. *)
Theorem fetchSoil_layer_first (ls : list Fetch.Layer) (nm : string)
    (ds : list Fetch.Depth) (m : R) (pc ps pb : option Fetch.Depth) :
  find (fun l => String.eqb (Fetch.name l) "clay") ls =
    Some (Fetch.mkLayer nm (Some (Fetch.mkDepth (Some (Fetch.mkValues (Some m))) :: ds))) ->
  m <> 0 ->
  let s := Fetch.fetchSoil
             (Fetch.SoilData (Some (Fetch.mkProperties (Some ls) pc ps pb))) in
  Server.soil_clay s = m / 10 /\ Server.soil_isWater s = false.
Proof.
  intros Hf Hm s. subst s.
  unfold Fetch.fetchSoil, Fetch.soilAnswer; cbn [Fetch.layers Fetch.prop_clay].
  assert (E : Fetch.getValFromLayers ls "clay" = m).
  { unfold Fetch.getValFromLayers. rewrite Hf.
    cbn [Fetch.depths Fetch.values Fetch.mean Fetch.or_else].
    now rewrite (falsy_nonzero m Hm). }
  rewrite E, (fallbackTo_nonzero m pc Hm).
  unfold Server.fetchSoil. rewrite (falsy_nonzero m Hm). cbn. split; reflexivity.
Qed.

Lemma fetchSoil_layer_first_witness :
  let s := Fetch.fetchSoil
             (Fetch.SoilData
                (Some (Fetch.mkProperties
                         (Some [Fetch.mkLayer "sand" None;
                                Fetch.mkLayer "clay"
                                  (Some [Fetch.mkDepth (Some (Fetch.mkValues (Some 270)))]);
                                Fetch.mkLayer "clay"
                                  (Some [Fetch.mkDepth (Some (Fetch.mkValues (Some 999)))])])
                         (Some (Fetch.mkDepth (Some (Fetch.mkValues (Some 55)))))
                         None None))) in
  Server.soil_clay s = 270 / 10 /\ Server.soil_isWater s = false.
Proof.
  apply (fetchSoil_layer_first _ "clay" [] 270); [reflexivity | lra].
Defined.

(** X16. When no layer is named clay, a non-zero mean of the direct clay
    entry is used instead: divided by 10 it is the clay percentage that
    [fetchSoil] returns. *)
Theorem fetchSoil_direct_fallback (ls : list Fetch.Layer) (m : R)
    (ps pb : option Fetch.Depth) :
  Forall (fun l => Fetch.name l <> "clay"%string) ls ->
  m <> 0 ->
  let s := Fetch.fetchSoil
             (Fetch.SoilData
                (Some (Fetch.mkProperties (Some ls)
                         (Some (Fetch.mkDepth (Some (Fetch.mkValues (Some m)))))
                         ps pb))) in
  Server.soil_clay s = m / 10 /\ Server.soil_isWater s = false.
Proof.
  intros Hf Hm s. subst s.
  unfold Fetch.fetchSoil, Fetch.soilAnswer; cbn [Fetch.layers Fetch.prop_clay].
  rewrite (getValFromLayers_absent ls "clay" Hf).
  assert (E : Fetch.fallbackTo 0 (Some (Fetch.mkDepth (Some (Fetch.mkValues (Some m))))) = m).
  { unfold Fetch.fallbackTo. rewrite falsy_zero.
    cbn [Fetch.values Fetch.mean Fetch.or_else]. now rewrite (falsy_nonzero m Hm). }
  rewrite E.
  unfold Server.fetchSoil. rewrite (falsy_nonzero m Hm). cbn. split; reflexivity.
Qed.

Lemma fetchSoil_direct_fallback_witness :
  let s := Fetch.fetchSoil
             (Fetch.SoilData
                (Some (Fetch.mkProperties (Some [])
                         (Some (Fetch.mkDepth (Some (Fetch.mkValues (Some 310)))))
                         None None))) in
  Server.soil_clay s = 310 / 10 /\ Server.soil_isWater s = false.
Proof.
  apply (fetchSoil_direct_fallback [] 310); [constructor | lra].
Defined.

(** ** The route *)

Lemma fetchWeather_rain (w : Fetch.WeatherAnswer) :
  Fetch.report_rain (Fetch.fetchWeather w) =
  Fetch.report_precip_real (Fetch.fetchWeather w) * 10.
Proof. destruct w; cbn; lra. Qed.

(** X17. The route answers 400 exactly when [lat] or [lng] is missing
    from the body; the three answers of the services play no part. *)
Theorem predict_bad_request (body : Route.Body) (w : Fetch.WeatherAnswer)
    (s : Fetch.SoilResponse) (e : Fetch.ElevationAnswer) :
  Route.predict body w s e = Route.BadRequest <->
  Route.lat body = None \/ Route.lng body = None.
Proof.
  unfold Route.predict.
  destruct (Route.lat body), (Route.lng body); split; intro H;
    try discriminate; try reflexivity; auto.
  destruct H; discriminate.
Qed.

(** X18. With both coordinates, the route answers with the prediction
    of the engine for the features it returns, and in these features the
    rain is ten times [precip_real], with or without a manual rainfall,
    and whether or not the weather request failed. *)
Theorem predict_reply (la ln : R) (m : option R) (w : Fetch.WeatherAnswer)
    (s : Fetch.SoilResponse) (e : Fetch.ElevationAnswer) :
  exists data : Route.Data,
    Route.predict (Route.mkBody (Some la) (Some ln) m) w s e =
    Route.Ok (Some la, Some ln) data
      (Engine.evaluate (Route.data_features data))
      (match m with Some _ => true | None => false end) /\
    rain (Route.data_features data) = Route.data_precip_real data * 10.
Proof.
  exists (Route.mkData
            (Server.features (Fetch.weatherOf (Fetch.fetchWeather w))
               (Fetch.fetchSoil s) (Fetch.calculateSlope e) m)
            (Fetch.report_humidity (Fetch.fetchWeather w))
            (match m with
             | Some v => v
             | None => Fetch.report_precip_real (Fetch.fetchWeather w)
             end)).
  split; [reflexivity |].
  cbn [Route.data_features Route.data_precip_real Server.features rain].
  destruct m; [reflexivity |].
  cbn [Fetch.weatherOf Server.weather_rain]. apply fetchWeather_rain.
Qed.

(** X19. A simulation is faithful: the prediction for a manual rainfall
    [m] is the prediction that the route gives without override when the
    weather service reports the precipitation [m] with the same
    temperature and code. *)
Theorem simulation_matches_live (la ln m : R) (w w' : Fetch.WeatherAnswer)
    (s : Fetch.SoilResponse) (e : Fetch.ElevationAnswer) :
  Fetch.report_temp (Fetch.fetchWeather w') = Fetch.report_temp (Fetch.fetchWeather w) ->
  Fetch.report_code (Fetch.fetchWeather w') = Fetch.report_code (Fetch.fetchWeather w) ->
  Fetch.report_precip_real (Fetch.fetchWeather w') = m ->
  Route.predictionOf (Route.predict (Route.mkBody (Some la) (Some ln) (Some m)) w s e) =
  Route.predictionOf (Route.predict (Route.mkBody (Some la) (Some ln) None) w' s e).
Proof.
  intros Ht Hc Hp.
  cbn [Route.predict Route.predictionOf Route.lat Route.lng Route.manualRain].
  do 2 f_equal. unfold Server.features, Fetch.weatherOf.
  cbn [Server.weather_temp Server.weather_rain Server.weather_code].
  rewrite (fetchWeather_rain w'), Ht, Hc, Hp. reflexivity.
Qed.

Lemma simulation_matches_live_witness :
  Route.predictionOf
    (Route.predict (Route.mkBody (Some 10.85) (Some 76.27) (Some 12))
       Fetch.WeatherFailed Fetch.SoilFailed Fetch.ElevationFailed) =
  Route.predictionOf
    (Route.predict (Route.mkBody (Some 10.85) (Some 76.27) None)
       (Fetch.WeatherData
          (Some (Fetch.mkHourly (Some ["t0"]%string) (Some [25]) (Some [40]) (Some [12])))
          None)
       Fetch.SoilFailed Fetch.ElevationFailed).
Proof.
  apply (simulation_matches_live 10.85 76.27 12); reflexivity.
Defined.

(** X20. When the elevation request fails, the level is never [High],
    whatever the weather, the soil and the manual rainfall; and when all
    three requests fail, the route answers [Low] with [FoS = 20]. *)
Theorem elevation_failure (la ln : R) (m : option R) (w : Fetch.WeatherAnswer)
    (s : Fetch.SoilResponse) :
  exists p : PredictionResult,
    Route.predictionOf
      (Route.predict (Route.mkBody (Some la) (Some ln) m) w s Fetch.ElevationFailed) =
    Some p /\
    level p <> High /\
    (w = Fetch.WeatherFailed -> s = Fetch.SoilFailed ->
     level p = Low /\ FoS (details p) = 20).
Proof.
  eexists. split; [reflexivity |].
  cbn [Route.manualRain Fetch.calculateSlope].
  set (f := Server.features _ _ _ _).
  assert (Hs : slope f = 0) by reflexivity.
  assert (Hflat : Engine.classify f = (20, 0.01)) by (apply classify_flat; lra).
  assert (Hlow : Engine.levelOf (Engine.probability f) = Low).
  { unfold Engine.probability. rewrite Hflat. cbn [snd].
    unfold Engine.levelOf. js_cases; try reflexivity; lra. }
  split.
  - unfold Engine.calculateLandslideRisk.
    destruct (Engine.isSeaOrWater f); [discriminate |].
    destruct (Engine.isSnow f); cbn [level].
    + rewrite Hs. js_cases; [lra | discriminate].
    + rewrite Hlow. discriminate.
  - intros -> ->.
    assert (Hn : Engine.normalPath f).
    { split.
      - apply isSeaOrWater_false. intros [H | (_ & _ & _ & H)];
          [discriminate | cbn in H; lra].
      - unfold Engine.isSnow. cbn. apply lt_false. lra. }
    change (Engine.calculateLandslideRisk f) with (Engine.evaluate f).
    rewrite (normalPath_result f Hn); cbn [level details FoS].
    unfold Engine.FoS1. rewrite Hflat. split; [exact Hlow | reflexivity].
Qed.

Lemma soilWater_answer : Server.fetchSoil (Server.Means 0 0 0) = Server.soilWater.
Proof. cbn. now rewrite falsy_zero. Qed.

(** X21. When the soil answer carries three zero means, the route
    answers [Safe] with [FoS = 100] and the water sentence, whatever the
    weather, the terrain and the manual rainfall. *)
Theorem open_water_reply (la ln : R) (m : option R) (w : Fetch.WeatherAnswer)
    (s : Fetch.SoilResponse) (e : Fetch.ElevationAnswer) :
  Fetch.soilAnswer s = Server.Means 0 0 0 ->
  Route.predictionOf (Route.predict (Route.mkBody (Some la) (Some ln) m) w s e) =
  Some {| level := Safe;
          reason := Engine.waterReason;
          details := {| FoS := 100;
                        cohesion_base := 0; friction_base := 0;
                        cohesion_effective := 0; friction_effective := 0;
                        shear_strength := 0; shear_stress := 0 |} |}.
Proof.
  intro H.
  cbn [Route.predict Route.predictionOf Route.lat Route.lng Route.manualRain].
  unfold Fetch.fetchSoil. rewrite H, soilWater_answer.
  unfold Engine.calculateLandslideRisk, Engine.isSeaOrWater.
  reflexivity.
Qed.

Lemma empty_properties_answer :
  Fetch.soilAnswer (Fetch.SoilData (Some (Fetch.mkProperties None None None None))) =
  Server.Means 0 0 0.
Proof.
  cbn. unfold Fetch.fallbackTo. now rewrite falsy_zero.
Qed.

Lemma open_water_reply_witness :
  option_map level
    (Route.predictionOf
       (Route.predict (Route.mkBody (Some 9.5) (Some 75.1) (Some 30))
          Fetch.WeatherFailed
          (Fetch.SoilData (Some (Fetch.mkProperties None None None None)))
          Fetch.ElevationFailed)) = Some Safe.
Proof.
  rewrite (open_water_reply 9.5 75.1 (Some 30) Fetch.WeatherFailed _
             Fetch.ElevationFailed empty_properties_answer).
  reflexivity.
Defined.

Lemma features_withRain (w : Server.Weather) (s : Server.Soil) (t : Server.Topo)
    (m : R) :
  Server.features w s t (Some m) = Spec.withRain (m * 10) (Server.features w s t None).
Proof. reflexivity. Qed.

Lemma assembled_in_range (w : Server.Weather) (s : Fetch.SoilResponse)
    (e : Fetch.ElevationAnswer) :
  Range.soilMeans (Fetch.soilAnswer s) ->
  Spec.inRange (Server.features w (Fetch.fetchSoil s) (Fetch.calculateSlope e) None).
Proof.
  intro H. unfold Spec.inRange, Spec.textureRange, Server.features;
    cbn [slope bulk_density clay sand silt].
  split.
  - destruct e as [| es]; cbn [Fetch.calculateSlope Server.topo_slope].
    + lra.
    + apply rounded_slope_range, sqrt_pos.
  - unfold Fetch.fetchSoil.
    destruct (Fetch.soilAnswer s) as [| | c0 s0 b]; cbn [Server.fetchSoil].
    + cbn. lra.
    + cbn. lra.
    + cbn in H. destruct H as (Hc & Hs & Hb).
      destruct (Js.falsy c0 && Js.falsy s0 && Js.falsy b); cbn; [lra |].
      js_cases; lra.
Qed.

(** X22. Through the whole route, for soil means in physical units,
    raising the manual rainfall never raises the returned [FoS] and
    never lowers the level, whatever the weather and the terrain
    answers and on whichever path the engine is. *)
Theorem more_simulated_rain (la ln m1 m2 : R) (w : Fetch.WeatherAnswer)
    (s : Fetch.SoilResponse) (e : Fetch.ElevationAnswer) :
  Range.soilMeans (Fetch.soilAnswer s) ->
  m1 <= m2 ->
  exists p1 p2 : PredictionResult,
    Route.predictionOf
      (Route.predict (Route.mkBody (Some la) (Some ln) (Some m1)) w s e) = Some p1 /\
    Route.predictionOf
      (Route.predict (Route.mkBody (Some la) (Some ln) (Some m2)) w s e) = Some p2 /\
    FoS (details p2) <= FoS (details p1) /\
    (Risk.severity (level p1) <= Risk.severity (level p2))%nat.
Proof.
  intros Hsoil Hle.
  do 2 eexists. split; [reflexivity |]. split; [reflexivity |].
  cbn [Route.manualRain]. rewrite !features_withRain.
  set (f := Server.features _ _ _ None).
  assert (Hr : Spec.inRange f) by (apply assembled_in_range; exact Hsoil).
  assert (Hm : m1 * 10 <= m2 * 10) by lra.
  unfold Engine.calculateLandslideRisk.
  change (Engine.isSeaOrWater (Spec.withRain (m1 * 10) f)) with (Engine.isSeaOrWater f).
  change (Engine.isSeaOrWater (Spec.withRain (m2 * 10) f)) with (Engine.isSeaOrWater f).
  change (Engine.isSnow (Spec.withRain (m1 * 10) f)) with (Engine.isSnow f).
  change (Engine.isSnow (Spec.withRain (m2 * 10) f)) with (Engine.isSnow f).
  destruct (Engine.isSeaOrWater f); [cbn; split; [lra | lia] |].
  destruct (Engine.isSnow f); cbn [details FoS level].
  - change (slope (Spec.withRain (m1 * 10) f)) with (slope f).
    change (slope (Spec.withRain (m2 * 10) f)) with (slope f).
    split; [lra | lia].
  - split.
    + destruct Hr as (Hs & Hb & Ht). now apply FoS1_mono.
    + now apply levelOf_probability_mono.
Qed.

Lemma soilAnswer_three_layers (c0 s0 b : R) :
  c0 <> 0 -> s0 <> 0 -> b <> 0 ->
  Fetch.soilAnswer
    (Fetch.SoilData
       (Some (Fetch.mkProperties
                (Some [Fetch.mkLayer "clay" (Some [Fetch.mkDepth (Some (Fetch.mkValues (Some c0)))]);
                       Fetch.mkLayer "sand" (Some [Fetch.mkDepth (Some (Fetch.mkValues (Some s0)))]);
                       Fetch.mkLayer "bdod" (Some [Fetch.mkDepth (Some (Fetch.mkValues (Some b)))])])
                None None None))) =
  Server.Means c0 s0 b.
Proof.
  intros Hc Hs Hb. cbn. unfold Fetch.or_else, Fetch.fallbackTo.
  now rewrite !(falsy_nonzero c0 Hc), !(falsy_nonzero s0 Hs), !(falsy_nonzero b Hb).
Qed.

Lemma more_simulated_rain_witness :
  let s :=
    Fetch.SoilData
      (Some (Fetch.mkProperties
               (Some [Fetch.mkLayer "clay" (Some [Fetch.mkDepth (Some (Fetch.mkValues (Some 270)))]);
                      Fetch.mkLayer "sand" (Some [Fetch.mkDepth (Some (Fetch.mkValues (Some 400)))]);
                      Fetch.mkLayer "bdod" (Some [Fetch.mkDepth (Some (Fetch.mkValues (Some 130)))])])
               None None None)) in
  let e := Fetch.ElevationData (Some [Some 640; Some 700; Some 655]) in
  Range.soilMeans (Fetch.soilAnswer s) /\
  exists p1 p2 : PredictionResult,
    Route.predictionOf
      (Route.predict (Route.mkBody (Some 10.85) (Some 76.27) (Some 5))
         Fetch.WeatherFailed s e) = Some p1 /\
    Route.predictionOf
      (Route.predict (Route.mkBody (Some 10.85) (Some 76.27) (Some 90))
         Fetch.WeatherFailed s e) = Some p2 /\
    FoS (details p2) <= FoS (details p1) /\
    (Risk.severity (level p1) <= Risk.severity (level p2))%nat.
Proof.
  intros s e.
  assert (H : Range.soilMeans (Fetch.soilAnswer s)).
  { unfold s. rewrite soilAnswer_three_layers by lra. cbn. lra. }
  split; [exact H |].
  apply (more_simulated_rain 10.85 76.27 5 90 Fetch.WeatherFailed s e H). lra.
Defined.

(** ** The client *)

(** X23. The reply is flagged as simulated exactly when the simulation
    mode is on.  With the mode on, the rainfall used is the override
    passed to [predictRisk], or the slider value without one; with the
    mode off an override is ignored and the live precipitation is
    used. *)
Theorem simulated_iff_simMode (simMode : bool) (rainValue : R) (latlng : R * R)
    (manualRainOverride : option R) (w : Fetch.WeatherAnswer)
    (s : Fetch.SoilResponse) (e : Fetch.ElevationAnswer) :
  let r := Route.predict
             (Client.request simMode rainValue latlng manualRainOverride) w s e in
  Route.isSimulatedOf r = Some simMode /\
  option_map Route.data_precip_real (Route.dataOf r) =
  Some (if simMode
        then match manualRainOverride with Some v => v | None => rainValue end
        else Fetch.report_precip_real (Fetch.fetchWeather w)).
Proof.
  destruct simMode, manualRainOverride; split; reflexivity.
Qed.

(** X24. [safeDetail] shows the value under the key when there is
    one, otherwise the value under the key with [_effective] appended,
    otherwise the fallback.  For every details record of the engine the
    cohesion box therefore shows [cohesion_effective] and the friction
    box [friction_effective], never the fallback: the record has no key
    [cohesion] or [friction]. *)
Theorem safeDetail_effective (o : list (string * R)) (d : Details)
    (key suffix : string) (fallback : Js.str) :
  (forall v, Client.get o key = Some v ->
     Client.safeDetail (Some o) key suffix fallback = [Js.Num v; Js.Text suffix]) /\
  (forall v, Client.get o key = None ->
     Client.get o (key ++ "_effective") = Some v ->
     Client.safeDetail (Some o) key suffix fallback = [Js.Num v; Js.Text suffix]) /\
  (Client.get o key = None -> Client.get o (key ++ "_effective") = None ->
     Client.safeDetail (Some o) key suffix fallback = fallback) /\
  Client.safeDetail (Some (Client.detailsObject d)) "cohesion" suffix fallback =
    [Js.Num (cohesion_effective d); Js.Text suffix] /\
  Client.safeDetail (Some (Client.detailsObject d)) "friction" suffix fallback =
    [Js.Num (friction_effective d); Js.Text suffix].
Proof.
  unfold Client.safeDetail. split; [| split; [| split; [| split]]].
  - intros v H. now rewrite H.
  - intros v H1 H2. now rewrite H1, H2.
  - intros H1 H2. now rewrite H1, H2.
  - reflexivity.
  - reflexivity.
Qed.

Lemma safeDetail_effective_witness :
  Client.safeDetail (Some [("cohesion_effective", 12.22); ("cohesion", 7)]%string)
    "cohesion" " kPa" [Js.Text "N/A"] =
  [Js.Num 7; Js.Text " kPa"].
Proof.
  refine (proj1 (safeDetail_effective _ (mkDetails 0 0 0 0 0 0 0) "cohesion" " kPa"
                   [Js.Text "N/A"]) 7 _).
  reflexivity.
Defined.

(** X25. The elevation box shows N/A exactly when the elevation is 0;
    this is what it shows when the elevation request failed or returned
    no value. *)
Theorem elevationBox_zero (elevation : R) :
  (Client.elevationBox elevation = [Js.Text "N/A"] <-> elevation = 0) /\
  Client.elevationBox
    (Server.topo_elevation (Fetch.calculateSlope Fetch.ElevationFailed)) =
    [Js.Text "N/A"] /\
  Client.elevationBox
    (Server.topo_elevation (Fetch.calculateSlope (Fetch.ElevationData None))) =
    [Js.Text "N/A"].
Proof.
  unfold Client.elevationBox, Js.falsy. split; [| split].
  - destruct (Req_dec_T elevation 0) as [E | E]; split; intro H;
      try reflexivity; try assumption; try discriminate; contradiction.
  - cbn. destruct (Req_dec_T 0 0); [reflexivity | contradiction].
  - cbn. destruct (Req_dec_T 0 0); [reflexivity | contradiction].
Qed.

(** X26. The colour of the risk header follows the safety factor: red
    only with [FoS < 1.2], orange only with [1.2 <= FoS <= 1.5], green
    only with [FoS >= 1.5]; open water is green. *)
Theorem headerColour_FoS (f : FeatureSet) :
  let r := Engine.evaluate f in
  match Client.headerColour (level r) with
  | Client.Red => FoS (details r) < 1.2
  | Client.Orange => 1.2 <= FoS (details r) <= 1.5
  | Client.Green => 1.5 <= FoS (details r)
  end.
Proof.
  unfold Engine.evaluate, Engine.calculateLandslideRisk.
  destruct (Engine.isSeaOrWater f); [cbn; lra |].
  destruct (Engine.isSnow f); cbn [level details FoS].
  - js_cases; cbn; lra.
  - unfold Engine.probability, Engine.FoS1, Engine.classify, Engine.levelOf.
    set (a := Engine.FoS0 f).
    js_cases; cbn [fst snd]; js_cases; cbn [fst snd Client.headerColour] in *; lra.
Qed.
